(** * Age/autism screening web client: a shallow embedding of the two
    React front ends and of [src/utils/api.js].

    - App 1 (the MUI client, first half of [App.js]) submits through
      [analyzeImage] of [api.js];
    - App 2 (the plain-CSS client, second half) does its own [fetch] and
      renders the response with [renderResults].

    JavaScript values are modelled by [jv]; a thrown exception by
    [js_error]; numbers inside JSON payloads are integers (enough for the
    truthiness and equality tests the code performs; [String] of a number
    first reads it as the nearest double, as [JSON.parse] does). *)

From Stdlib Require Import String Ascii List ZArith QArith Bool Lia.
From Stdlib Require Import DecimalString.
Import ListNotations.
Open Scope string_scope.
Set Warnings "-register-all".

(* ------------------------------------------------------------------ *)
(** ** JavaScript values *)

Inductive jv : Type :=
| JUndef
| JNull
| JBool (b : bool)
| JNum (n : Z)
| JStr (s : string)
| JArr (l : list jv)
| JObj (fields : list (string * jv)).

(** A thrown JavaScript error: its [name] and its [message]. *)
Record js_error := mkErr { err_name : string; err_message : string }.

(** [new Error(msg)]. *)
Definition new_Error (msg : string) : js_error := mkErr "Error" msg.

(** The [TypeError] raised by reading a property of [null]/[undefined] or by
    calling a method a value does not have. *)
Definition type_error (what : string) : js_error := mkErr "TypeError" what.

(** Computations that may throw. *)
Definition throws (A : Type) := (A + js_error)%type.

Definition ret {A} (a : A) : throws A := inl a.
Definition raise {A} (e : js_error) : throws A := inr e.
Definition bind {A B} (m : throws A) (k : A -> throws B) : throws B :=
  match m with inl a => k a | inr e => inr e end.

Notation "'let*' x := m 'in' k" := (bind m (fun x => k))
  (at level 200, x name, m at level 100, k at level 200).

(** JavaScript truthiness. *)
Definition truthy (v : jv) : bool :=
  match v with
  | JUndef | JNull => false
  | JBool b => b
  | JNum n => negb (Z.eqb n 0)
  | JStr s => negb (String.eqb s "")
  | JArr _ | JObj _ => true
  end.

(** [a || b] on values. *)
Definition js_or (a b : jv) : jv := if truthy a then a else b.

(** [typeof v === 'object']. *)
Definition typeof_object (v : jv) : bool :=
  match v with JNull | JArr _ | JObj _ => true | _ => false end.

(** Object field lookup; [JSON.parse] keeps the last of duplicated keys. *)
Fixpoint assoc_last (k : string) (fs : list (string * jv)) : option jv :=
  match fs with
  | [] => None
  | (k', v) :: fs' =>
      match assoc_last k fs' with
      | Some w => Some w
      | None => if String.eqb k k' then Some v else None
      end
  end.

(** [v.k] on a value that is not [null]/[undefined]. *)
Definition get (v : jv) (k : string) : jv :=
  match v with
  | JObj fs => match assoc_last k fs with Some w => w | None => JUndef end
  | JArr l => if String.eqb k "length" then JNum (Z.of_nat (List.length l)) else JUndef
  | JStr s => if String.eqb k "length" then JNum (Z.of_nat (String.length s)) else JUndef
  | _ => JUndef
  end.

(** [v.k]: throws on [null] and [undefined]. *)
Definition prop (v : jv) (k : string) : throws jv :=
  match v with
  | JUndef | JNull => raise (type_error ("Cannot read properties of null or undefined (reading '" ++ k ++ "')"))
  | _ => ret (get v k)
  end.

(** [v?.k]. *)
Definition optprop (v : jv) (k : string) : jv :=
  match v with JUndef | JNull => JUndef | _ => get v k end.

(** [v.startsWith(p)]: only strings have the method. *)
Definition js_startsWith (v : jv) (p : string) : throws bool :=
  match v with
  | JStr s => ret (String.prefix p s)
  | _ => raise (type_error "startsWith is not a function")
  end.

(** [String.prototype.includes]. *)
Fixpoint str_includes (needle hay : string) : bool :=
  String.prefix needle hay ||
  match hay with
  | EmptyString => false
  | String _ hay' => str_includes needle hay'
  end.

(** [toLowerCase] on the ASCII range. *)
Definition lower_ascii (c : ascii) : ascii :=
  let n := nat_of_ascii c in
  if (65 <=? n)%nat && (n <=? 90)%nat then ascii_of_nat (n + 32)%nat else c.

Fixpoint str_lower (s : string) : string :=
  match s with
  | EmptyString => EmptyString
  | String c s' => String (lower_ascii c) (str_lower s')
  end.

Definition string_of_Z (z : Z) : string := NilZero.string_of_int (Z.to_int z).

(** [Number::toString] of an integer-valued number.  A literal [a > 0]
    is read as the nearest IEEE-754 double (ties to even), as [JSON.parse]
    does. *)
Definition dbl_round (a : Z) : Z :=
  if (a <? 2 ^ 53)%Z then a
  else
    let u := (2 ^ (Z.log2 a - 52))%Z in
    let q := (a / u)%Z in
    let r := (a mod u)%Z in
    let q' := if (2 * r <? u)%Z then q
              else if (u <? 2 * r)%Z then (q + 1)%Z
              else if Z.even q then q else (q + 1)%Z in
    (q' * u)%Z.

(** Spacing of the doubles at [a] (for integers below [2^53], only [a]
    itself reads back, so [1] serves). *)
Definition dbl_ulp (a : Z) : Z := if (a <? 2 ^ 53)%Z then 1%Z else (2 ^ (Z.log2 a - 52))%Z.

(** The integer [v] reads back as the double [a]: it lies within half the
    gap to the neighbouring doubles, boundary included when [a]'s
    significand is even (scaled by 4 to keep the quarter gap below a
    power of two). *)
Definition reads_back (a v : Z) : bool :=
  let u := dbl_ulp a in
  let lo := if (2 ^ 53 <=? a)%Z && (a =? 2 ^ Z.log2 a)%Z then u else (2 * u)%Z in
  let hi := (2 * u)%Z in
  let even := Z.even (a / u) in
  let d := (4 * (v - a))%Z in
  if (d <? 0)%Z then (- d <? lo)%Z || (even && (- d =? lo)%Z)
  else (d <? hi)%Z || (even && (d =? hi)%Z).

(** The decimal with the fewest significant digits that reads back as
    [a]: the largest [d] for which a multiple of [10^d] reads back, the one
    closest to [a], the even one on a tie. *)
Fixpoint shortest_from (a : Z) (fuel : nat) (d : Z) : Z :=
  match fuel with
  | O => a
  | S fuel' =>
      let p := (10 ^ d)%Z in
      let c1 := (a / p * p)%Z in
      let c2 := (c1 + p)%Z in
      match reads_back a c1, reads_back a c2 with
      | true, true =>
          if (a - c1 <? c2 - a)%Z then c1
          else if (c2 - a <? a - c1)%Z then c2
          else if Z.even (c1 / p) then c1 else c2
      | true, false => c1
      | false, true => c2
      | false, false => shortest_from a fuel' (d - 1)
      end
  end.

Definition shortest (a : Z) : Z :=
  let n := String.length (string_of_Z a) in
  shortest_from a (S n) (Z.of_nat n).

Fixpoint strip_zeros_rev (l : list ascii) : list ascii :=
  match l with
  | "0"%char :: l' => strip_zeros_rev l'
  | _ => l
  end.

Definition digits_no_trailing (s : string) : string :=
  string_of_list_ascii (rev (strip_zeros_rev (rev (list_ascii_of_string s)))).

(** Digits [n] at most 21: the integer in full; beyond: [d.ddde+x]. *)
Definition fmt_pos (v : Z) : string :=
  let str := string_of_Z v in
  let n := String.length str in
  if (n <=? 21)%nat then str
  else
    let e := "e+" ++ string_of_Z (Z.of_nat n - 1) in
    match digits_no_trailing str with
    | String c EmptyString => String c e
    | String c rest => String c ("." ++ rest ++ e)
    | EmptyString => e
    end.

(** Past the largest double the value is [Infinity]. *)
Definition num_String_pos (a : Z) : string :=
  let m := dbl_round a in
  if (2 ^ 1024 <=? m)%Z then "Infinity" else fmt_pos (shortest m).

Definition num_String (z : Z) : string :=
  if (z =? 0)%Z then "0"
  else if (z <? 0)%Z then "-" ++ num_String_pos (- z)
  else num_String_pos z.

(** [String(v)], as used by [new Error(v)]: a primitive converts directly,
    an array joins its elements with [","] (null and undefined give the
    empty string), and a JSON object prints as ["[object Object]"] unless
    it has an own [toString] key: that property is not callable, nor is an
    own [valueOf], and [Object.prototype.valueOf] returns the object
    itself, so the conversion throws. *)
Fixpoint js_String (v : jv) : throws string :=
  match v with
  | JUndef => ret "undefined"
  | JNull => ret "null"
  | JBool b => ret (if b then "true" else "false")
  | JNum n => ret (num_String n)
  | JStr s => ret s
  | JArr l =>
      (fix join (l : list jv) : throws string :=
         match l with
         | [] => ret ""
         | [x] => match x with JUndef | JNull => ret "" | _ => js_String x end
         | x :: l' =>
             let* a := match x with JUndef | JNull => ret "" | _ => js_String x end in
             let* b := join l' in
             ret (a ++ "," ++ b)
         end) l
  | JObj fs =>
      match assoc_last "toString" fs with
      | Some _ => raise (type_error "Cannot convert object to primitive value")
      | None => ret "[object Object]"
      end
  end.

(* ------------------------------------------------------------------ *)
(** ** Configuration ([src/config], imported by [api.js] and App 1) *)

Record config := mkConfig {
  API_BASE_URL : string;
  ENDPOINTS_ANALYZE : string;
  UPLOAD_ALLOWED_TYPES : list string;
  UPLOAD_MAX_FILE_SIZE : Z;
  UI_LOADING_TIMEOUT : Z;
  ERRORS_INVALID_FILE_TYPE : string;
  ERRORS_FILE_TOO_LARGE : string;
  ERRORS_BACKEND_ERROR : string;
  ERRORS_NETWORK_ERROR : string
}.

(** A browser [File]. *)
Record file := mkFile { file_name : string; file_type : string; file_size : Z }.

(* ------------------------------------------------------------------ *)
(** ** Network *)

(** A settled [fetch]: status, status text and the body as [response.json()]
    sees it ([inr msg]: the body is not JSON and [json()] throws a
    [SyntaxError] with that message). *)
Record response := mkResponse {
  resp_status : Z;
  resp_statusText : string;
  resp_body : (jv + string)%type
}.

Definition resp_ok (r : response) : bool :=
  (200 <=? resp_status r)%Z && (resp_status r <=? 299)%Z.

(** How the network answers a request: it settles with a response, or
    rejects with an error, after [t] milliseconds, or it never settles. *)
Inductive fetch_outcome :=
| FResolve (t : Z) (r : response)
| FReject (t : Z) (e : js_error)
| FHang.

(** Observable effects of the client. *)
Inductive url := UObj (h : nat) | UData (s : string).

Inductive effect :=
| ESetTimer (ms : Z)
| EClearTimer
| EFetch (target : string)
| EAbort
| ECreateURL (h : nat)
| ERevoke (u : url).

(** The error [fetch] rejects with once its signal is aborted. *)
Definition abort_error : js_error := mkErr "AbortError" "The user aborted a request.".

(* ------------------------------------------------------------------ *)
(** ** [src/utils/api.js] *)

(** [validateFile]: a missing file, a type outside the allowed list, a size
    above the maximum; the type test comes first. *)
Definition validateFile (cfg : config) (f : option file) : throws bool :=
  match f with
  | None => raise (new_Error "No file selected")
  | Some f =>
      if negb (existsb (String.eqb (file_type f)) (UPLOAD_ALLOWED_TYPES cfg))
      then raise (new_Error (ERRORS_INVALID_FILE_TYPE cfg))
      else if (UPLOAD_MAX_FILE_SIZE cfg <? file_size f)%Z
      then raise (new_Error (ERRORS_FILE_TOO_LARGE cfg))
      else ret true
  end.

(** [response.json()]. *)
Definition response_json (r : response) : throws jv :=
  match resp_body r with
  | inl d => ret d
  | inr m => raise (mkErr "SyntaxError" m)
  end.

(** The part of the [try] block that runs once [fetch] has resolved. *)
Definition analyze_after_fetch (cfg : config) (r : response) : throws jv :=
  if negb (resp_ok r) then
    if (resp_status r =? 404)%Z
    then raise (new_Error "API endpoint not found. Please check the configuration.")
    else if (500 <=? resp_status r)%Z
    then raise (new_Error (ERRORS_BACKEND_ERROR cfg))
    else raise (new_Error ("HTTP " ++ string_of_Z (resp_status r) ++ ": " ++ resp_statusText r))
  else
    let* data := response_json r in
    if negb (truthy data) || negb (typeof_object data)
    then raise (new_Error "Invalid response format from server")
    else
      let e := get data "error" in
      if truthy e then let* m := js_String e in raise (new_Error m) else ret data.

(** The [try] block of [analyzeImage]: validation, then the [fetch] raced
    against the [setTimeout] that aborts it.  The network settles after [t]
    ms and the timer fires after [UI_LOADING_TIMEOUT] ms; the fetch wins
    when [t] is strictly smaller.  After an abort, [fetch] rejects with an
    [AbortError].  The timer is only cleared when [fetch] resolves. *)
Definition analyze_try (cfg : config) (f : option file) (fo : fetch_outcome)
  : list effect * throws jv :=
  match validateFile cfg f with
  | inr e => ([], inr e)
  | inl _ =>
      let D := UI_LOADING_TIMEOUT cfg in
      let started := [ESetTimer D; EFetch (API_BASE_URL cfg ++ ENDPOINTS_ANALYZE cfg)] in
      match fo with
      | FResolve t r =>
          if (t <? D)%Z then (app started [EClearTimer], analyze_after_fetch cfg r)
          else (app started [EAbort], raise abort_error)
      | FReject t e =>
          if (t <? D)%Z then (started, raise e)
          else (app started [EAbort], raise abort_error)
      | FHang => (app started [EAbort], raise abort_error)
      end
  end.

(** The [catch] block of [analyzeImage]. *)
Definition analyze_catch (cfg : config) (e : js_error) : js_error :=
  if String.eqb (err_name e) "AbortError"
  then new_Error "Request timed out. Please try again."
  else if String.eqb (err_name e) "TypeError" && str_includes "fetch" (err_message e)
  then new_Error (ERRORS_NETWORK_ERROR cfg)
  else e.

Definition analyzeImage (cfg : config) (f : option file) (fo : fetch_outcome)
  : list effect * throws jv :=
  let (effs, r) := analyze_try cfg f fo in
  (effs, match r with inl d => inl d | inr e => inr (analyze_catch cfg e) end).

(** Resolution of an image path against a base origin, the ternary the
    sources write out at each image:
    [p.startsWith('http') ? p : `${base}${p}`]. *)
Definition resolve_url (base : string) (v : jv) : throws string :=
  let* sw := js_startsWith v "http" in
  match v with
  | JStr p => ret (if sw then p else base ++ p)
  | _ => raise (type_error "startsWith is not a function")
  end.

(** [x === 'lit'] for a string literal. *)
Definition is_str (v : jv) (s : string) : bool :=
  match v with JStr s' => String.eqb s' s | _ => false end.

(* ------------------------------------------------------------------ *)
(** ** App 1: the MUI client *)

Module App1.

(** The snackbar text: a value from the response, or the upload notice
    (whose size is formatted by [formatFileSize] when displayed). *)
Inductive snack_msg := SText (v : jv) | SUploaded (name : string) (size : Z).

Record snackbar := mkSnack { sb_open : bool; sb_message : snack_msg; sb_severity : string }.

(** The [useState] hooks of [App]. *)
Record state := mkState {
  selectedImage : option file;
  previewUrl : option url;
  isProcessing : bool;
  backendMessage : jv;
  ageAnnotatedImageUrl : option string;
  autismAnnotatedImageUrl : option string;
  ageAnalysis : jv;
  autismAnalysis : jv;
  error : option string;
  snack : snackbar;
  showWebcam : bool
}.

Definition init : state :=
  mkState None None false (JStr "") None None (JObj []) (JObj []) None
          (mkSnack false (SText (JStr "")) "info") false.

Definition setSelectedImage v s := mkState v (previewUrl s) (isProcessing s) (backendMessage s) (ageAnnotatedImageUrl s) (autismAnnotatedImageUrl s) (ageAnalysis s) (autismAnalysis s) (error s) (snack s) (showWebcam s).
Definition setPreviewUrl v s := mkState (selectedImage s) v (isProcessing s) (backendMessage s) (ageAnnotatedImageUrl s) (autismAnnotatedImageUrl s) (ageAnalysis s) (autismAnalysis s) (error s) (snack s) (showWebcam s).
Definition setIsProcessing v s := mkState (selectedImage s) (previewUrl s) v (backendMessage s) (ageAnnotatedImageUrl s) (autismAnnotatedImageUrl s) (ageAnalysis s) (autismAnalysis s) (error s) (snack s) (showWebcam s).
Definition setBackendMessage v s := mkState (selectedImage s) (previewUrl s) (isProcessing s) v (ageAnnotatedImageUrl s) (autismAnnotatedImageUrl s) (ageAnalysis s) (autismAnalysis s) (error s) (snack s) (showWebcam s).
Definition setAgeAnnotatedImageUrl v s := mkState (selectedImage s) (previewUrl s) (isProcessing s) (backendMessage s) v (autismAnnotatedImageUrl s) (ageAnalysis s) (autismAnalysis s) (error s) (snack s) (showWebcam s).
Definition setAutismAnnotatedImageUrl v s := mkState (selectedImage s) (previewUrl s) (isProcessing s) (backendMessage s) (ageAnnotatedImageUrl s) v (ageAnalysis s) (autismAnalysis s) (error s) (snack s) (showWebcam s).
Definition setAgeAnalysis v s := mkState (selectedImage s) (previewUrl s) (isProcessing s) (backendMessage s) (ageAnnotatedImageUrl s) (autismAnnotatedImageUrl s) v (autismAnalysis s) (error s) (snack s) (showWebcam s).
Definition setAutismAnalysis v s := mkState (selectedImage s) (previewUrl s) (isProcessing s) (backendMessage s) (ageAnnotatedImageUrl s) (autismAnnotatedImageUrl s) (ageAnalysis s) v (error s) (snack s) (showWebcam s).
Definition setError v s := mkState (selectedImage s) (previewUrl s) (isProcessing s) (backendMessage s) (ageAnnotatedImageUrl s) (autismAnnotatedImageUrl s) (ageAnalysis s) (autismAnalysis s) v (snack s) (showWebcam s).
Definition setSnackbar v s := mkState (selectedImage s) (previewUrl s) (isProcessing s) (backendMessage s) (ageAnnotatedImageUrl s) (autismAnnotatedImageUrl s) (ageAnalysis s) (autismAnalysis s) (error s) v (showWebcam s).
Definition setShowWebcam v s := mkState (selectedImage s) (previewUrl s) (isProcessing s) (backendMessage s) (ageAnnotatedImageUrl s) (autismAnnotatedImageUrl s) (ageAnalysis s) (autismAnalysis s) (error s) (snack s) v.

(** State updates that may throw part-way: the updates made before the
    throw are kept, as React keeps the [setX] calls already issued. *)
Definition SE (A : Type) := state -> state * throws A.

Definition se_ret {A} (a : A) : SE A := fun s => (s, inl a).
Definition se_bind {A B} (m : SE A) (k : A -> SE B) : SE B :=
  fun s => let (s', r) := m s in
           match r with inl a => k a s' | inr e => (s', inr e) end.
Definition lift {A} (m : throws A) : SE A := fun s => (s, m).
Definition upd (f : state -> state) : SE unit := fun s => (f s, inl tt).

Notation "x <- m ;; k" := (se_bind m (fun x => k)) (at level 61, m at next level, right associativity).
Notation "m ;;; k" := (se_bind m (fun _ => k)) (at level 61, right associativity).

Definition resetStateExceptImage : SE unit :=
  upd (setAgeAnalysis (JObj [])) ;;;
  upd (setAutismAnalysis (JObj [])) ;;;
  upd (setAutismAnnotatedImageUrl None) ;;;
  upd (setAgeAnnotatedImageUrl None) ;;;
  upd (setBackendMessage (JStr "")) ;;;
  upd (setError None).

(** [cond && obj.k]'s truth value, [obj] being evaluated once more. *)
Definition and_prop (v : jv) (k : string) : throws bool :=
  if truthy v then let* w := prop v k in ret (truthy w) else ret false.

(** The [try] block of [handleAnalyze] once [analyzeImage] has returned
    [res]. *)
Definition on_response (cfg : config) (res : jv) : SE unit :=
  msg <- lift (prop res "message") ;;
  upd (setBackendMessage (js_or msg (JStr ""))) ;;;
  acs <- lift (prop res "age_check_summary") ;;
  c1 <- lift (and_prop acs "annotated_image_url") ;;
  (if c1 then
     u <- lift (prop acs "annotated_image_url") ;;
     url <- lift (resolve_url (API_BASE_URL cfg) u) ;;
     upd (setAgeAnnotatedImageUrl (Some url)) ;;;
     upd (setAgeAnalysis (js_or acs (JObj [])))
   else se_ret tt) ;;;
  apd <- lift (prop res "autism_prediction_data") ;;
  c2 <- lift (and_prop apd "annotated_image_path") ;;
  (if c2 then
     st <- lift (prop res "status") ;;
     if is_str st "adult_invalid" then
       upd (setAutismAnnotatedImageUrl None) ;;;
       upd (setAutismAnalysis (JObj []))
     else
       p <- lift (prop apd "annotated_image_path") ;;
       url <- lift (resolve_url (API_BASE_URL cfg) p) ;;
       upd (setAutismAnnotatedImageUrl (Some url)) ;;;
       upd (setAutismAnalysis (js_or apd (JObj [])))
   else
     upd (setAutismAnnotatedImageUrl None) ;;;
     upd (setAutismAnalysis (JObj []))) ;;;
  st <- lift (prop res "status") ;;
  upd (setSnackbar (mkSnack true (SText (js_or msg (JStr "Analysis complete.")))
                     (if is_str st "adult_invalid" then "warning" else "success"))).

(** [handleAnalyze]: the network effects of [analyzeImage] and the new
    state; the [catch] records the message, the [finally] clears the
    processing flag. *)
Definition handleAnalyze (cfg : config) (fo : fetch_outcome) (s : state)
  : list effect * state :=
  match selectedImage s with
  | None => ([], s)
  | Some f =>
      let s1 := fst ((upd (setIsProcessing true) ;;; resetStateExceptImage) s) in
      let (effs, r) := analyzeImage cfg (Some f) fo in
      let (s2, out) := match r with
                       | inl res => on_response cfg res s1
                       | inr e => (s1, inr e)
                       end in
      let s3 := match out with
                | inl _ => s2
                | inr err =>
                    setSnackbar (mkSnack true (SText (JStr (err_message err))) "error")
                      (setError (Some (err_message err)) s2)
                end in
      (effs, setIsProcessing false s3)
  end.

(** What the results cards show of the autism analysis: the annotated
    image ([autismAnnotatedImageUrl ? <img/> : ...]) and the regional table
    ([autismAnalysis.results && autismAnalysis.results.length > 0]). *)
Definition autism_output_shown (s : state) : bool :=
  match autismAnnotatedImageUrl s with
  | Some u => negb (String.eqb u "")
  | None => false
  end
  || (let r := get (autismAnalysis s) "results" in
      truthy r && match get r "length" with JNum n => (0 <? n)%Z | _ => false end).

(** The component together with the browser's object-URL registry: the
    next fresh handle and the log of effects. *)
Record world := mkWorld { st : state; next_handle : nat; log : list effect }.

Definition world0 : world := mkWorld init 0 [].

Definition url_truthy (u : url) : bool :=
  match u with UObj _ => true | UData d => negb (String.eqb d "") end.

(** [handleImageSelect]: [files[0]], if any, becomes the selected image
    with a fresh object URL as preview; nothing is validated here. *)
Definition handleImageSelect (files : list file) (w : world) : world :=
  match files with
  | [] => w
  | f :: _ =>
      let h := next_handle w in
      let s := setPreviewUrl (Some (UObj h)) (setSelectedImage (Some f) (st w)) in
      let s := fst (resetStateExceptImage s) in
      let s := setSnackbar (mkSnack true (SUploaded (file_name f) (file_size f)) "success") s in
      mkWorld s (S h) (app (log w) [ECreateURL h])
  end.

(** [captureFromWebcam], once [fetch(screenshot).then(res => res.blob())]
    has produced the blob: the preview is the screenshot's data URL. *)
Definition captureFromWebcam (screenshot : string) (blob_size : Z) (w : world) : world :=
  let webcamFile := mkFile "webcam-capture.jpg" "image/jpeg" blob_size in
  let s := setPreviewUrl (Some (UData screenshot)) (setSelectedImage (Some webcamFile) (st w)) in
  let s := fst (resetStateExceptImage s) in
  let s := setSnackbar (mkSnack true (SText (JStr "Image captured from webcam")) "success") s in
  mkWorld s (next_handle w) (log w).

(** [handleReset]: the eight setters, then [URL.revokeObjectURL] on the
    preview held when the handler runs. *)
Definition handleReset (w : world) : world :=
  let s0 := st w in
  let s := setError None (setBackendMessage (JStr "")
            (setAutismAnnotatedImageUrl None (setAgeAnnotatedImageUrl None
            (setAutismAnalysis (JObj []) (setAgeAnalysis (JObj [])
            (setPreviewUrl None (setSelectedImage None s0))))))) in
  let revoked := match previewUrl s0 with
                 | Some u => if url_truthy u then [ERevoke u] else []
                 | None => []
                 end in
  mkWorld s (next_handle w) (app (log w) revoked).

Definition analyze_world (cfg : config) (fo : fetch_outcome) (w : world) : world :=
  let (effs, s) := handleAnalyze cfg fo (st w) in
  mkWorld s (next_handle w) (app (log w) effs).

(** User events of App 1. *)
Inductive event :=
| ESelect (files : list file)
| ECapture (screenshot : string) (blob_size : Z)
| EAnalyze (fo : fetch_outcome)
| EReset
| EToggleWebcam
| ECloseSnackbar.

Definition step (cfg : config) (w : world) (e : event) : world :=
  match e with
  | ESelect fs => handleImageSelect fs w
  | ECapture shot n => captureFromWebcam shot n w
  | EAnalyze fo => analyze_world cfg fo w
  | EReset => handleReset w
  | EToggleWebcam =>
      mkWorld (setShowWebcam (negb (showWebcam (st w))) (st w)) (next_handle w) (log w)
  | ECloseSnackbar =>
      let sb := snack (st w) in
      mkWorld (setSnackbar (mkSnack false (sb_message sb) (sb_severity sb)) (st w))
              (next_handle w) (log w)
  end.

Definition run (cfg : config) (evs : list event) (w : world) : world :=
  fold_left (step cfg) evs w.

(** [getConfidenceColor] of App 1's [ConfidenceLevel]. *)
Definition getConfidenceColor (conf : Q) : string :=
  if Qle_bool 70 conf then "#16a34a"
  else if Qle_bool 40 conf then "#ca8a04"
  else "#dc2626".

End App1.

(* ------------------------------------------------------------------ *)
(** ** App 2: the plain-CSS client *)

Module App2.

(** [getConfidenceClass] of [ConfidenceLevel]; JavaScript's [>=] on
    (finite) numbers is [Qle]. *)
Definition getConfidenceClass (confidence : Q) : string :=
  if Qle_bool 70 confidence then "confidence-high"
  else if Qle_bool 40 confidence then "confidence-medium"
  else "confidence-low".

(** The origin App 2 hard-codes. *)
Definition origin : string := "https://age-api-zzc8.onrender.com".

(** The [useState] hooks of [App], and the file input element's value
    (which [handleReset] clears through [fileInputRef]). *)
Record state := mkState {
  selectedFile : option file;
  previewUrl : option url;
  isLoading : bool;
  error : option string;
  result : jv;
  isDragOver : bool;
  fileInputValue : string
}.

Definition init : state := mkState None None false None JNull false "".

Definition setSelectedFile v s := mkState v (previewUrl s) (isLoading s) (error s) (result s) (isDragOver s) (fileInputValue s).
Definition setPreviewUrl v s := mkState (selectedFile s) v (isLoading s) (error s) (result s) (isDragOver s) (fileInputValue s).
Definition setIsLoading v s := mkState (selectedFile s) (previewUrl s) v (error s) (result s) (isDragOver s) (fileInputValue s).
Definition setError v s := mkState (selectedFile s) (previewUrl s) (isLoading s) v (result s) (isDragOver s) (fileInputValue s).
Definition setResult v s := mkState (selectedFile s) (previewUrl s) (isLoading s) (error s) v (isDragOver s) (fileInputValue s).
Definition setIsDragOver v s := mkState (selectedFile s) (previewUrl s) (isLoading s) (error s) (result s) v (fileInputValue s).
Definition setFileInputValue v s := mkState (selectedFile s) (previewUrl s) (isLoading s) (error s) (result s) (isDragOver s) v.

Definition msg_invalid_type : string := "Invalid file type. Please select an image file.".
Definition msg_too_large : string := "File too large. Please select an image smaller than 10MB.".

(** [validateFile]: [None] when the file passes, otherwise the message it
    passes to [setError]. *)
Definition validateFile (f : option file) : option string :=
  match f with
  | None => Some "No file selected"
  | Some f =>
      if negb (String.prefix "image/" (file_type f)) then Some msg_invalid_type
      else if (10 * 1024 * 1024 <? file_size f)%Z then Some msg_too_large
      else None
  end.

Record world := mkWorld { st : state; next_handle : nat; log : list effect }.

Definition world0 : world := mkWorld init 0 [].

(** [handleFileSelect]. *)
Definition handleFileSelect (f : option file) (w : world) : world :=
  let s := setResult JNull (setError None (st w)) in
  match validateFile f with
  | Some m => mkWorld (setError (Some m) s) (next_handle w) (log w)
  | None =>
      let h := next_handle w in
      mkWorld (setPreviewUrl (Some (UObj h)) (setSelectedFile f s)) (S h)
              (app (log w) [ECreateURL h])
  end.

(** [handleFileInputChange]: the browser has set the input's value to the
    chosen file; [files[0]] is [undefined] when nothing was chosen. *)
Definition handleFileInputChange (files : list file) (w : world) : world :=
  let v := match files with f :: _ => file_name f | [] => "" end in
  let w := mkWorld (setFileInputValue v (st w)) (next_handle w) (log w) in
  handleFileSelect (hd_error files) w.

(** [handleDrop]. *)
Definition handleDrop (files : list file) (w : world) : world :=
  let w := mkWorld (setIsDragOver false (st w)) (next_handle w) (log w) in
  match files with
  | f :: _ => handleFileSelect (Some f) w
  | [] => w
  end.

(** [handleReset]. *)
Definition handleReset (w : world) : world :=
  let s := setResult JNull (setError None (setPreviewUrl None (setSelectedFile None (st w)))) in
  mkWorld (setFileInputValue "" s) (next_handle w) (log w).

(** The [try] block of [handleAnalyze] once [fetch] has resolved. *)
Definition analyze_after_fetch (r : response) : throws jv :=
  if negb (resp_ok r)
  then raise (new_Error ("HTTP error! status: " ++ string_of_Z (resp_status r)))
  else
    let* data := response_json r in
    if negb (truthy data) || negb (typeof_object data)
    then raise (new_Error "Unexpected result format")
    else ret data.

(** The message the [catch] block of [handleAnalyze] shows. *)
Definition catch_message (e : js_error) : string :=
  let m := err_message e in
  if str_includes "Failed to fetch" m
  then "Network error. Please check your connection and try again."
  else if str_includes "HTTP error" m then "Server error. Please try again later."
  else if String.eqb m "" then "An unexpected error occurred. Please try again."
  else m.

(** [handleAnalyze]: one [fetch] with no timer; while the network has not
    settled ([FHang]) the component stays loading. *)
Definition handleAnalyze (fo : fetch_outcome) (w : world) : world :=
  match selectedFile (st w) with
  | None => mkWorld (setError (Some "Please select an image first") (st w)) (next_handle w) (log w)
  | Some _ =>
      let s := setResult JNull (setError None (setIsLoading true (st w))) in
      let l := app (log w) [EFetch (origin ++ "/process")] in
      let outcome : option (throws jv) :=
        match fo with
        | FHang => None
        | FReject _ e => Some (raise e)
        | FResolve _ r => Some (analyze_after_fetch r)
        end in
      match outcome with
      | None => mkWorld s (next_handle w) l
      | Some r =>
          let s := match r with
                   | inl data => setResult data s
                   | inr e => setError (Some (catch_message e)) s
                   end in
          mkWorld (setIsLoading false s) (next_handle w) l
      end
  end.

Inductive event :=
| ESelect (files : list file)
| EDrop (files : list file)
| EAnalyze (fo : fetch_outcome)
| EReset
| ECloseAlert.

Definition step (w : world) (e : event) : world :=
  match e with
  | ESelect fs => handleFileInputChange fs w
  | EDrop fs => handleDrop fs w
  | EAnalyze fo => handleAnalyze fo w
  | EReset => handleReset w
  | ECloseAlert => mkWorld (setError None (st w)) (next_handle w) (log w)
  end.

Definition run (evs : list event) (w : world) : world := fold_left step evs w.

(** What [renderResults] puts in the results panel.  [EPredTable] and
    [EAgeSummary] are the [PredictionTable] and [AgeSummary] elements, whose
    functions React runs later, outside [renderResults]. *)
Inductive elem :=
| ELoading
| EPrompt
| EImg (src alt : string)
| EPredTable (results : jv)
| EFinalDecision (cls text : string)
| EAgeSummary (summary : jv)
| EAdultInvalid
| ENotice (msg : string).

Definition msg_unexpected : string := "Unexpected result format. Please try again.".
Definition msg_render_error : string := "Error displaying results. Please try again.".

(** [results.find(r => r.final_decision)]: only arrays have [find]. *)
Definition find_final_decision (rs : jv) : throws jv :=
  match rs with
  | JArr l =>
      (fix go (l : list jv) : throws jv :=
         match l with
         | [] => ret JUndef
         | x :: l' => let* v := prop x "final_decision" in
                      if truthy v then ret x else go l'
         end) l
  | _ => raise (type_error "results.find is not a function")
  end.

(** [x.toLowerCase()]: only strings have the method. *)
Definition js_toLowerCase (v : jv) : throws string :=
  match v with
  | JStr s => ret (str_lower s)
  | _ => raise (type_error "toLowerCase is not a function")
  end.

(** The final-decision block of the [child_autism_screened] branch. *)
Definition final_decision_block (rs : jv) : throws (list elem) :=
  let* fd := find_final_decision rs in
  if truthy fd then
    let* d := prop fd "final_decision" in
    let* low := js_toLowerCase d in
    let* text := js_String d in
    ret [EFinalDecision
           ("final-decision " ++ (if str_includes "autistic" low then "autistic" else "non-autistic"))
           text]
  else ret [].

(** The body of the [try] in [renderResults]. *)
Definition render_body (result : jv) : throws (list elem) :=
  let* status := prop result "status" in
  if is_str status "child_autism_screened" then
    let* apd := prop result "autism_prediction_data" in
    let p := optprop apd "annotated_image_path" in
    let* img := if truthy p then let* src := resolve_url origin p in ret [EImg src "Analysis result"]
                else ret [] in
    let rs := optprop apd "results" in
    let table := if truthy rs then [EPredTable rs] else [] in
    let* fin := if truthy rs then final_decision_block rs else ret [] in
    let* acs := prop result "age_check_summary" in
    ret (app img (app table (app fin [EAgeSummary acs])))
  else if is_str status "adult_invalid" then
    let* u := prop result "annotated_image_url" in
    let* img := if truthy u then let* src := resolve_url origin u in ret [EImg src "Age analysis result"]
                else ret [] in
    let* acs := prop result "age_check_summary" in
    ret (app img [EAdultInvalid; EAgeSummary acs])
  else ret [ENotice msg_unexpected].

(** [renderResults]: the loading and empty cases, then the [try] block with
    its [catch]. *)
Definition renderResults (isLoading : bool) (result : jv) : list elem :=
  if isLoading then [ELoading]
  else if negb (truthy result) then [EPrompt]
  else match render_body result with
       | inl v => v
       | inr _ => [ENotice msg_render_error]
       end.

(** Autism output in the results panel: the autism-annotated image, the
    prediction table or the final decision. *)
Definition autism_elem (e : elem) : bool :=
  match e with
  | EImg _ alt => String.eqb alt "Analysis result"
  | EPredTable _ | EFinalDecision _ _ => true
  | _ => false
  end.

Definition autism_output_shown (v : list elem) : bool := existsb autism_elem v.

(** [Array.prototype.filter] with a callback that may throw: the
    callback runs on the elements in order and the first throw escapes. *)
Fixpoint js_filter (p : jv -> throws bool) (l : list jv) : throws (list jv) :=
  match l with
  | [] => ret []
  | x :: l' =>
      let* b := p x in
      let* r := js_filter p l' in
      ret (if b then x :: r else r)
  end.

(** A row of [PredictionTable]: [result.region], [result.label || 'N/A'] and
    the [result.confidence || 0] handed to [ConfidenceLevel]. *)
Record pred_row := mkRow { row_region : jv; row_label : jv; row_confidence : jv }.

Definition pred_row_of (r : jv) : pred_row :=
  mkRow (get r "region") (js_or (get r "label") (JStr "N/A")) (js_or (get r "confidence") (JNum 0)).

(** [PredictionTable]: [None] is the [return null] for a missing or
    non-array [results]; otherwise the rows of
    [results.filter(result => result.region)]. *)
Definition PredictionTable (results : jv) : throws (option (list pred_row)) :=
  if negb (truthy results) then ret None
  else match results with
       | JArr l =>
           let* rr := js_filter (fun r => let* v := prop r "region" in ret (truthy v)) l in
           ret (Some (map pred_row_of rr))
       | _ => ret None
       end.

(** A line of [AgeSummary], as [renderAge] builds it: ["Age: {age.age}"]
    with the box when [age.box] is truthy, ["Age: {JSON.stringify(age)}"]
    for another object, ["Age: {String(age)}"] for a primitive. *)
Inductive age_line :=
| AgeOf (age : jv) (box : option jv)
| AgeJSON (v : jv)
| AgeText (s : string).

Definition renderAge (age : jv) : age_line :=
  match age with
  | JObj _ | JArr _ =>
      match get age "age" with
      | JUndef => AgeJSON age
      | a => AgeOf a (if truthy (get age "box") then Some (get age "box") else None)
      end
  | JUndef => AgeText "undefined"
  | JNull => AgeText "null"
  | JBool b => AgeText (if b then "true" else "false")
  | JNum n => AgeText (num_String n)
  | JStr s => AgeText s
  end.

(** [AgeSummary]: [None] is its [return null]; otherwise the lines under
    "Detected Age(s)". *)
Definition AgeSummary (ageCheckSummary : jv) : option (list age_line) :=
  if negb (truthy ageCheckSummary) then None
  else
    let ages := get ageCheckSummary "annotations" in
    if negb (truthy ages) then None
    else Some (match ages with
               | JArr l => map renderAge l
               | _ => [renderAge ages]
               end).

End App2.

(* ------------------------------------------------------------------ *)
(** ** App 1: the alerts of the results cards *)

Module App1View.

(** The "Adult Detected" warning of the age card:
    [backendMessage && (backendMessage.toLowerCase().includes('adult') ||
    ... 'invalid' ... || ... 'error')]. *)
Definition adult_warning_shown (s : App1.state) : throws bool :=
  let bm := App1.backendMessage s in
  if truthy bm then
    let* low := App2.js_toLowerCase bm in
    ret (str_includes "adult" low || str_includes "invalid" low || str_includes "error" low)
  else ret false.

(** The "Autism Scanning Disabled" alert of the autism card:
    [backendMessage && backendMessage.toLowerCase().includes('adult')]. *)
Definition autism_disabled_shown (s : App1.state) : throws bool :=
  let bm := App1.backendMessage s in
  if truthy bm then
    let* low := App2.js_toLowerCase bm in
    ret (str_includes "adult" low)
  else ret false.

End App1View.

(** A configuration for concrete runs: the 10MB limit the spec reports,
    a 30 s timeout. *)
Definition sample_config : config :=
  mkConfig "http://localhost:5000" "/api/analyze" ["image/jpeg"; "image/png"; "image/gif"]
           (10 * 1024 * 1024) 30000
           "Invalid file type. Please select an image file."
           "File too large. Please select an image smaller than 10MB."
           "Server error. Please try again later."
           "Network error. Please check your connection and try again.".

(** Files for concrete runs. *)
Definition sample_image : file := mkFile "photo.jpg" "image/jpeg" 204800.
Definition sample_text_15MB : file := mkFile "notes.txt" "text/plain" (15 * 1024 * 1024).

Definition ok_response (body : jv) : response := mkResponse 200 "OK" (inl body).

(** Number of requests issued in a log. *)
Definition fetch_count (l : list effect) : nat :=
  length (filter (fun e => match e with EFetch _ => true | _ => false end) l).

(** The network has not settled when a timer of [D] ms fires. *)
Definition settles_after (D : Z) (fo : fetch_outcome) : bool :=
  match fo with
  | FHang => true
  | FResolve t _ | FReject t _ => (D <=? t)%Z
  end.

(** A file selected in App 2. *)
Definition app2_with_image : App2.world := App2.handleFileSelect (Some sample_image) App2.world0.

(** A screened-child response whose final decision is a number. *)
Definition numeric_decision_payload : jv :=
  JObj [("status", JStr "child_autism_screened");
        ("autism_prediction_data",
         JObj [("results", JArr [JObj [("final_decision", JNum 1)]])])].

(** A file selected in App 1. *)
Definition app1_with_image : App1.world := App1.handleImageSelect [sample_image] App1.world0.

(** An image above the 10MB limit. *)
Definition sample_big_image : file := mkFile "scan.png" "image/png" (12 * 1024 * 1024).

(** An adult response that nevertheless carries autism data. *)
Definition adult_payload : jv :=
  JObj [("status", JStr "adult_invalid");
        ("message", JStr "Adult detected");
        ("annotated_image_url", JStr "/static/age_1.jpg");
        ("age_check_summary",
         JObj [("annotated_image_url", JStr "/static/age_1.jpg"); ("estimated_age", JNum 34)]);
        ("autism_prediction_data",
         JObj [("annotated_image_path", JStr "/static/autism_1.jpg");
               ("results", JArr [JObj [("final_decision", JStr "Autistic")]])])].

(** A screened-child response with an absolute age image and a relative
    autism image. *)
Definition child_payload : jv :=
  JObj [("status", JStr "child_autism_screened");
        ("age_check_summary",
         JObj [("annotated_image_url", JStr "https://cdn.example.org/age_2.jpg")]);
        ("autism_prediction_data",
         JObj [("annotated_image_path", JStr "/static/autism_2.jpg");
               ("results", JArr [JObj [("final_decision", JStr "Non-Autistic")]])])].

(** Object URLs revoked in a log. *)
Definition revoked_handles (l : list effect) : list nat :=
  flat_map (fun e => match e with ERevoke (UObj h) => [h] | _ => [] end) l.

(** Bookkeeping of App 1's object URLs: created handles are below the
    counter, revoked handles were created and are revoked once, and a
    preview held as an object URL is live. *)
Definition app1_url_inv (w : App1.world) : Prop :=
  (forall h, In (ECreateURL h) (App1.log w) -> (h < App1.next_handle w)%nat) /\
  (forall h, In h (revoked_handles (App1.log w)) -> In (ECreateURL h) (App1.log w)) /\
  NoDup (revoked_handles (App1.log w)) /\
  (forall h, App1.previewUrl (App1.st w) = Some (UObj h) ->
             In (ECreateURL h) (App1.log w) /\ ~ In h (revoked_handles (App1.log w))).


(** Shape tests used to state the rendering properties. *)
Definition is_obj (v : jv) : bool := match v with JObj _ => true | _ => false end.

Definition is_arr (v : jv) : bool := match v with JArr _ => true | _ => false end.

(** Induction on [jv] through the elements of arrays. *)
Definition jv_elem_ind (P : jv -> Prop)
  (HU : P JUndef) (HN : P JNull) (HB : forall b, P (JBool b)) (HZ : forall n, P (JNum n))
  (HS : forall s, P (JStr s)) (HA : forall l, Forall P l -> P (JArr l))
  (HO : forall fs, P (JObj fs)) : forall v, P v :=
  fix F (v : jv) : P v :=
    match v with
    | JUndef => HU
    | JNull => HN
    | JBool b => HB b
    | JNum n => HZ n
    | JStr s => HS s
    | JArr l =>
        HA l ((fix G (l : list jv) : Forall P l :=
                 match l with
                 | [] => Forall_nil P
                 | x :: l' => Forall_cons x (F x) (G l')
                 end) l)
    | JObj fs => HO fs
    end.

(* ================================================================== *)
(** * Properties *)

From Stdlib Require Import Lqa.

(** ** Property access *)

(** A value with a defined [status] is an object: reading its properties
    does not throw, and it is truthy. *)
Lemma prop_defined v k0 k : get v k0 <> JUndef -> prop v k = inl (get v k).
Proof. destruct v; simpl; try reflexivity; intro H; now elim H. Qed.

Lemma prop_nonnull v k : get v "status" <> JUndef -> prop v k = inl (get v k).
Proof. apply prop_defined. Qed.

Lemma truthy_of_status v : get v "status" <> JUndef -> truthy v = true.
Proof. destruct v; simpl; try reflexivity; intro H; now elim H. Qed.

Lemma resolve_url_str base p :
  resolve_url base (JStr p) = inl (if String.prefix "http" p then p else base ++ p).
Proof. unfold resolve_url; simpl; destruct (String.prefix "http" p); reflexivity. Qed.

Lemma truthy_str p : p <> "" -> truthy (JStr p) = true.
Proof.
  intro H; simpl; destruct (String.eqb p "") eqn:E; [apply String.eqb_eq in E; contradiction|reflexivity].
Qed.

(** ** Invariants of App 1's state updates *)

Module App1Facts.
Import App1.

Definition preserves (P : state -> Prop) {A} (m : SE A) : Prop :=
  forall s, P s -> P (fst (m s)).

Lemma pres_ret P {A} (a : A) : preserves P (se_ret a).
Proof. intros s H; exact H. Qed.

Lemma pres_upd (P : state -> Prop) (f : state -> state) :
  (forall s, P s -> P (f s)) -> preserves P (upd f).
Proof. intros Hf s H; exact (Hf s H). Qed.

Lemma pres_bind P {A B} (m : SE A) (k : A -> SE B) :
  preserves P m -> (forall a, preserves P (k a)) -> preserves P (se_bind m k).
Proof.
  intros Hm Hk s H; unfold se_bind.
  specialize (Hm s H); destruct (m s) as [s' [a|e]]; simpl in *; auto.
  apply Hk; exact Hm.
Qed.

Lemma pres_bind_lift P {A B} (t : throws A) (k : A -> SE B) :
  (forall a, t = inl a -> preserves P (k a)) -> preserves P (se_bind (lift t) k).
Proof.
  intros Hk s H; unfold se_bind, lift.
  destruct t as [a|e] eqn:Et; simpl; auto.
  apply (Hk a eq_refl); exact H.
Qed.

Lemma pres_lift P {A} (t : throws A) : preserves P (lift t).
Proof. intros s H; exact H. Qed.

Ltac pres_step :=
  first
  [ apply pres_bind_lift; intros ? ?
  | apply pres_bind; [ | intros ? ]
  | apply pres_upd; intros ? ?; simpl; assumption
  | apply pres_ret
  | apply pres_lift ].

Ltac pres_auto :=
  repeat (pres_step || match goal with
                       | |- preserves _ (if ?b then _ else _) => destruct b
                       end).

(** Fields [on_response] writes only in some branches. *)
Definition autism_cleared (s : state) : Prop :=
  autismAnnotatedImageUrl s = None /\ autismAnalysis s = JObj [].


(** With an [adult_invalid] status, [on_response] leaves the autism fields
    as it finds them when they are clear. *)
Lemma on_response_adult_cleared cfg res :
  get res "status" = JStr "adult_invalid" -> preserves autism_cleared (on_response cfg res).
Proof.
  intros Hst. assert (Hp : forall k, prop res k = inl (get res k))
    by (intro k; apply prop_nonnull; rewrite Hst; discriminate).
  unfold on_response.
  repeat pres_step.
  - destruct a2; repeat pres_step.
  - destruct a5.
    + apply pres_bind_lift; intros sv He; rewrite Hp, Hst in He; injection He as <-.
      simpl; repeat pres_step; intros s0 [Hu Ha]; split; simpl; auto.
    + repeat pres_step; intros s0 [Hu Ha]; split; simpl; auto.
Qed.
(** How [handleAnalyze] carries a property of the state through a
    successful [analyzeImage]. *)
Lemma handleAnalyze_success_pres (P : state -> Prop) cfg fo s f res :
  selectedImage s = Some f ->
  snd (analyzeImage cfg (Some f) fo) = inl res ->
  P (fst ((upd (setIsProcessing true) ;;; resetStateExceptImage) s)) ->
  preserves P (on_response cfg res) ->
  (forall s0 m e, P s0 -> P (setSnackbar m (setError e s0))) ->
  (forall s0 b, P s0 -> P (setIsProcessing b s0)) ->
  P (snd (handleAnalyze cfg fo s)).
Proof.
  intros Hsel Hres H1 Hon Hcatch Hproc.
  unfold handleAnalyze; rewrite Hsel.
  destruct (analyzeImage cfg (Some f) fo) as [effs r]; simpl in Hres; subst r.
  specialize (Hon _ H1).
  destruct (on_response cfg res _) as [s2 out]; simpl in *.
  apply Hproc; destruct out; auto.
Qed.

Lemma autism_cleared_not_shown s : autism_cleared s -> autism_output_shown s = false.
Proof. intros [Hu Ha]; unfold autism_output_shown; rewrite Hu, Ha; reflexivity. Qed.

(** Pre/postconditions for [SE] computations. *)
Definition hoare (P Q : state -> Prop) {A} (m : SE A) : Prop :=
  forall s, P s -> Q (fst (m s)).

Lemma hoare_lift_inl P Q {A B} (t : throws A) (a : A) (k : A -> SE B) :
  t = inl a -> hoare P Q (k a) -> hoare P Q (se_bind (lift t) k).
Proof. intros -> H s Hs; exact (H s Hs). Qed.

Lemma hoare_upd_then P P' Q f {B} (k : unit -> SE B) :
  (forall s, P s -> P' (f s)) -> hoare P' Q (k tt) -> hoare P Q (se_bind (upd f) k).
Proof. intros Hf Hk s Hs; exact (Hk _ (Hf s Hs)). Qed.

Lemma hoare_upd P Q f : (forall s, P s -> Q (f s)) -> hoare P Q (upd f).
Proof. intros Hf s Hs; exact (Hf s Hs). Qed.

Lemma hoare_bind P Q {A B} (m : SE A) (k : A -> SE B) :
  hoare P Q m -> (forall a, preserves Q (k a)) -> hoare P Q (se_bind m k).
Proof.
  intros Hm Hk s Hs; unfold se_bind.
  specialize (Hm s Hs); destruct (m s) as [s' [a|e]]; simpl in *; auto.
  apply Hk; exact Hm.
Qed.

(** [on_response] stores the resolved age-annotated image URL. *)
Lemma on_response_age_url cfg res p :
  get (get res "age_check_summary") "annotated_image_url" = JStr p -> p <> "" ->
  hoare (fun _ => True)
        (fun s => ageAnnotatedImageUrl s
                  = Some (if String.prefix "http" p then p else API_BASE_URL cfg ++ p))
        (on_response cfg res).
Proof.
  intros Hp Hne.
  assert (Hacs : get res "age_check_summary" <> JUndef)
    by (intro E; rewrite E in Hp; discriminate).
  assert (Hu : get (get res "age_check_summary") "annotated_image_url" <> JUndef)
    by (rewrite Hp; discriminate).
  unfold on_response.
  eapply hoare_lift_inl; [apply (prop_defined res "age_check_summary"); exact Hacs|].
  apply (hoare_upd_then _ (fun _ => True)); [intros; exact I|].
  eapply hoare_lift_inl; [apply (prop_defined res "age_check_summary"); exact Hacs|].
  eapply hoare_lift_inl.
  { unfold and_prop.
    replace (truthy (get res "age_check_summary")) with true
      by (destruct (get res "age_check_summary"); simpl in *; try discriminate; reflexivity).
    rewrite (prop_defined _ _ "annotated_image_url" Hu), Hp; cbv [bind ret].
    rewrite (truthy_str p Hne); reflexivity. }
  apply hoare_bind.
  - eapply hoare_lift_inl; [apply (prop_defined _ _ "annotated_image_url" Hu)|].
    rewrite Hp.
    eapply hoare_lift_inl; [apply resolve_url_str|].
    apply (hoare_upd_then _
             (fun s => ageAnnotatedImageUrl s
                       = Some (if String.prefix "http" p then p else API_BASE_URL cfg ++ p)));
      [intros s _; reflexivity|].
    apply hoare_upd; intros s Hs; exact Hs.
  - intros []; pres_auto.
Qed.

(** [on_response] stores in [autismAnnotatedImageUrl] nothing or the
    resolved autism-annotated image path. *)
Lemma on_response_autism_url cfg res p :
  get (get res "autism_prediction_data") "annotated_image_path" = JStr p ->
  preserves (fun s => autismAnnotatedImageUrl s = None \/
                      autismAnnotatedImageUrl s
                      = Some (if String.prefix "http" p then p else API_BASE_URL cfg ++ p))
            (on_response cfg res).
Proof.
  intros Hp.
  assert (Hapd : get res "autism_prediction_data" <> JUndef)
    by (intro E; rewrite E in Hp; discriminate).
  assert (Hu : get (get res "autism_prediction_data") "annotated_image_path" <> JUndef)
    by (rewrite Hp; discriminate).
  unfold on_response; pres_auto.
  all: match goal with
       | |- preserves _ (upd (setAutismAnnotatedImageUrl None)) =>
           apply pres_upd; intros s0 _; left; reflexivity
       | Hq : prop _ "annotated_image_path" = inl ?q,
         Hv : resolve_url _ ?q = inl ?v,
         Ha : prop _ "autism_prediction_data" = inl ?apd |- _ =>
           rewrite (prop_defined _ _ _ Hapd) in Ha; injection Ha as <-;
           rewrite (prop_defined _ _ _ Hu), Hp in Hq; injection Hq as <-;
           rewrite resolve_url_str in Hv; injection Hv as <-;
           apply pres_upd; intros s0 _; right; reflexivity
       end.
Qed.

(** How [handleAnalyze] carries a postcondition of [on_response]. *)
Lemma handleAnalyze_success_post (Q : state -> Prop) cfg fo s f res :
  selectedImage s = Some f ->
  snd (analyzeImage cfg (Some f) fo) = inl res ->
  hoare (fun _ => True) Q (on_response cfg res) ->
  (forall s0 m e, Q s0 -> Q (setSnackbar m (setError e s0))) ->
  (forall s0 b, Q s0 -> Q (setIsProcessing b s0)) ->
  Q (snd (handleAnalyze cfg fo s)).
Proof.
  intros Hsel Hres Hon Hcatch Hproc.
  unfold handleAnalyze; rewrite Hsel.
  destruct (analyzeImage cfg (Some f) fo) as [effs r]; simpl in Hres; subst r.
  specialize (Hon (fst ((upd (setIsProcessing true) ;;; resetStateExceptImage) s)) I).
  destruct (on_response cfg res _) as [s2 out]; simpl in *.
  apply Hproc; destruct out; auto.
Qed.

End App1Facts.

(** ** C1 *)

(** C1: for a response whose [status] is ['adult_invalid'], no autism
    output is shown, even when [autism_prediction_data] is present: in App 1
    the autism image and table are empty after [handleAnalyze] processed
    the response; in App 2 [renderResults] produces no autism image, no
    prediction table and no final decision. *)
Theorem adult_invalid_no_autism_output :
  (forall cfg fo s f res,
      App1.selectedImage s = Some f ->
      snd (analyzeImage cfg (Some f) fo) = inl res ->
      get res "status" = JStr "adult_invalid" ->
      App1.autism_output_shown (snd (App1.handleAnalyze cfg fo s)) = false)
  /\
  (forall isLoading r,
      get r "status" = JStr "adult_invalid" ->
      App2.autism_output_shown (App2.renderResults isLoading r) = false).
Proof.
  split.
  - intros cfg fo s f res Hsel Hres Hst.
    apply App1Facts.autism_cleared_not_shown.
    apply (App1Facts.handleAnalyze_success_pres _ cfg fo s f res Hsel Hres).
    + split; reflexivity.
    + apply App1Facts.on_response_adult_cleared; exact Hst.
    + intros s0 m e [Hu Ha]; split; assumption.
    + intros s0 b [Hu Ha]; split; assumption.
  - intros isLoading r Hst.
    destruct isLoading; [reflexivity|].
    assert (Hn : get r "status" <> JUndef) by (rewrite Hst; discriminate).
    unfold App2.renderResults; rewrite (truthy_of_status r Hn); simpl negb; cbv iota.
    unfold App2.render_body; rewrite (prop_nonnull r "status" Hn); unfold bind at 1, ret at 1.
    rewrite Hst; simpl is_str; cbv iota beta.
    rewrite (prop_nonnull r "annotated_image_url" Hn), (prop_nonnull r "age_check_summary" Hn).
    destruct (get r "annotated_image_url"); simpl;
      repeat match goal with
             | |- context [if ?b then _ else _] => destruct b; simpl
             end; reflexivity.
Qed.

(** ** C2 *)

Lemma Qle_bool_false x y : Qle_bool x y = false -> y < x.
Proof.
  intro H; apply Qnot_le_lt; intro Hle; apply Qle_bool_iff in Hle; congruence.
Qed.

(** C2: the confidence band is "high" exactly when [c >= 70], "medium"
    exactly when [40 <= c < 70], and "low" exactly when [c < 40], both for
    App 2's class names and App 1's chip colours (green, amber, red). *)
Theorem confidence_bands :
  forall c : Q,
    (App2.getConfidenceClass c = "confidence-high" <-> 70 <= c) /\
    (App2.getConfidenceClass c = "confidence-medium" <-> 40 <= c /\ c < 70) /\
    (App2.getConfidenceClass c = "confidence-low" <-> c < 40) /\
    (App1.getConfidenceColor c = "#16a34a" <-> 70 <= c) /\
    (App1.getConfidenceColor c = "#ca8a04" <-> 40 <= c /\ c < 70) /\
    (App1.getConfidenceColor c = "#dc2626" <-> c < 40).
Proof.
  intro c; unfold App2.getConfidenceClass, App1.getConfidenceColor.
  destruct (Qle_bool 70 c) eqn:H70.
  - apply Qle_bool_iff in H70.
    repeat split; intros; try discriminate; try reflexivity; try assumption; try lra.
  - apply Qle_bool_false in H70.
    destruct (Qle_bool 40 c) eqn:H40.
    + apply Qle_bool_iff in H40.
      repeat split; intros; try discriminate; try reflexivity; try assumption; try lra.
    + apply Qle_bool_false in H40.
      repeat split; intros; try discriminate; try reflexivity; try assumption; try lra.
Qed.

(** ** C3 *)

Lemma analyze_catch_Error cfg m : analyze_catch cfg (new_Error m) = new_Error m.
Proof. reflexivity. Qed.

(** C3, as stated, fails: a 2xx body that is a JSON array, or an object
    whose [error] field is present but falsy ([null], [""]), is returned by
    [analyzeImage] as a success. *)
Lemma analyzeImage_success_on_array_or_falsy_error :
  snd (analyzeImage sample_config (Some sample_image) (FResolve 100 (ok_response (JArr []))))
    = inl (JArr [])
  /\ snd (analyzeImage sample_config (Some sample_image)
            (FResolve 100 (ok_response (JObj [("error", JNull)]))))
       = inl (JObj [("error", JNull)])
  /\ snd (analyzeImage sample_config (Some sample_image)
            (FResolve 100 (ok_response (JObj [("error", JStr "")]))))
       = inl (JObj [("error", JStr "")]).
Proof. vm_compute; repeat split. Qed.

(** [String] of an array, one element at a time. *)
Definition js_String_elem (x : jv) : throws string :=
  match x with JUndef | JNull => ret "" | _ => js_String x end.

Lemma js_String_one x : js_String (JArr [x]) = js_String_elem x.
Proof. reflexivity. Qed.

Lemma js_String_cons2 x y l :
  js_String (JArr (x :: y :: l))
  = let* a := js_String_elem x in let* b := js_String (JArr (y :: l)) in ret (a ++ "," ++ b).
Proof. reflexivity. Qed.

(** The only exception [String(v)] raises on a JSON value. *)
Lemma js_String_error v e :
  js_String v = inr e -> e = type_error "Cannot convert object to primitive value".
Proof.
  revert e; induction v as [| | b | n | s | l Hl | fs] using jv_elem_ind; try discriminate.
  - assert (Hel : forall x, (forall e, js_String x = inr e ->
                                       e = type_error "Cannot convert object to primitive value") ->
                  forall e, js_String_elem x = inr e ->
                            e = type_error "Cannot convert object to primitive value")
      by (intros x Hx; destruct x; try discriminate; exact Hx).
    induction Hl as [|x l Hx Hl IH]; [discriminate|].
    destruct l as [|y l']; [rewrite js_String_one; exact (Hel x Hx)|].
    intros e H; rewrite js_String_cons2 in H; cbv [bind ret] in H.
    destruct (js_String_elem x) eqn:Ex; [|injection H as <-; exact (Hel x Hx _ Ex)].
    destruct (js_String (JArr (y :: l'))) eqn:Ej; [discriminate|].
    injection H as <-; exact (IH _ eq_refl).
  - simpl; destruct (assoc_last "toString" fs); [|discriminate].
    intros e H; injection H as <-; reflexivity.
Qed.

(** C3 (amended): for a 2xx response that arrives before the deadline,
    [analyzeImage] fails with "Invalid response format from server" when the
    parsed body is falsy or not of JavaScript type [object] (arrays are of
    that type).  When [body.error] is truthy it fails with
    [new Error(body.error)]: the message is [String(body.error)] (the
    string itself for a string), and when that conversion throws (an object
    with an own [toString] key) the [TypeError] "Cannot convert object to
    primitive value" propagates.  Otherwise it returns the body as its
    result. *)
Theorem analyzeImage_2xx_body_checks :
  forall cfg f t r data,
    validateFile cfg (Some f) = inl true ->
    (t < UI_LOADING_TIMEOUT cfg)%Z ->
    resp_ok r = true ->
    resp_body r = inl data ->
    ((truthy data = false \/ typeof_object data = false) ->
       snd (analyzeImage cfg (Some f) (FResolve t r))
         = inr (new_Error "Invalid response format from server")) /\
    (forall m, truthy data = true -> typeof_object data = true -> truthy (get data "error") = true ->
       js_String (get data "error") = inl m ->
       snd (analyzeImage cfg (Some f) (FResolve t r)) = inr (new_Error m)) /\
    (forall e, truthy data = true -> typeof_object data = true -> truthy (get data "error") = true ->
       js_String (get data "error") = inr e ->
       snd (analyzeImage cfg (Some f) (FResolve t r))
         = inr (type_error "Cannot convert object to primitive value")) /\
    (forall e, truthy data = true -> get data "error" = JStr e -> e <> "" ->
       snd (analyzeImage cfg (Some f) (FResolve t r)) = inr (new_Error e)) /\
    (truthy data = true -> typeof_object data = true -> truthy (get data "error") = false ->
       snd (analyzeImage cfg (Some f) (FResolve t r)) = inl data).
Proof.
  intros cfg f t r data Hv Ht Hok Hb.
  assert (Hrun : snd (analyzeImage cfg (Some f) (FResolve t r))
                 = match analyze_after_fetch cfg r with
                   | inl d => inl d | inr e => inr (analyze_catch cfg e) end).
  { unfold analyzeImage, analyze_try; rewrite Hv.
    apply Z.ltb_lt in Ht; rewrite Ht; reflexivity. }
  assert (Haf : analyze_after_fetch cfg r
                = if negb (truthy data) || negb (typeof_object data)
                  then raise (new_Error "Invalid response format from server")
                  else if truthy (get data "error")
                       then let* m := js_String (get data "error") in raise (new_Error m)
                       else ret data).
  { unfold analyze_after_fetch, response_json; rewrite Hok, Hb; reflexivity. }
  rewrite Hrun, Haf.
  split; [|split; [|split; [|split]]].
  - intros [H|H]; rewrite H; [reflexivity|].
    rewrite orb_true_r; reflexivity.
  - intros m H1 H2 H3 Hm; rewrite H1, H2, H3; simpl; rewrite Hm; reflexivity.
  - intros e H1 H2 H3 He; rewrite H1, H2, H3; simpl; rewrite He.
    rewrite (js_String_error _ _ He); reflexivity.
  - intros e H1 He Hne.
    assert (Hto : typeof_object data = true)
      by (destruct data; simpl in *; try discriminate; reflexivity).
    rewrite H1, Hto, He; simpl.
    destruct (String.eqb e "") eqn:Ee; [apply String.eqb_eq in Ee; contradiction|].
    reflexivity.
  - intros H1 H2 H3; rewrite H1, H2, H3; reflexivity.
Qed.

(** ** C4 *)

(** C4, as stated, fails: App 2's [handleAnalyze] issues its request with no
    timer.  A response arriving after ten minutes is accepted, and a request
    that never settles leaves the client loading, with nothing aborted. *)
Lemma app2_submission_without_timeout :
  App2.log (App2.handleAnalyze FHang app2_with_image)
    = [ECreateURL 0; EFetch "https://age-api-zzc8.onrender.com/process"]
  /\ App2.isLoading (App2.st (App2.handleAnalyze FHang app2_with_image)) = true
  /\ App2.result (App2.st (App2.handleAnalyze
        (FResolve 600000 (ok_response (JObj [("status", JStr "adult_invalid")]))) app2_with_image))
       = JObj [("status", JStr "adult_invalid")]
  /\ App2.error (App2.st (App2.handleAnalyze
        (FResolve 600000 (ok_response (JObj [("status", JStr "adult_invalid")]))) app2_with_image))
       = None.
Proof. vm_compute; repeat split. Qed.

(** C4 (amended): a submission through [analyzeImage] (App 1's path) sets a
    timer of [UI_LOADING_TIMEOUT] ms and issues exactly one request; when the
    network has not settled by then, the request is aborted and the call
    fails with "Request timed out. Please try again.", which App 1 shows as
    its error.  A [TypeError] rejection before the deadline whose message
    contains ["fetch"] is reported with the network-error message; any other
    [TypeError] (Safari's "Load failed") is rethrown unchanged.  App 2's
    [handleAnalyze] calls [fetch] directly with no timer: it records only the
    request, a response is handled the same whatever its arrival time, and
    while the network has not settled the component stays loading. *)
Theorem analyzeImage_timeout :
  (forall cfg f fo,
    validateFile cfg (Some f) = inl true ->
    fetch_count (fst (analyzeImage cfg (Some f) fo)) = 1%nat /\
    (settles_after (UI_LOADING_TIMEOUT cfg) fo = true ->
       analyzeImage cfg (Some f) fo
       = ([ESetTimer (UI_LOADING_TIMEOUT cfg); EFetch (API_BASE_URL cfg ++ ENDPOINTS_ANALYZE cfg); EAbort],
          inr (new_Error "Request timed out. Please try again.")) /\
       (forall s, App1.selectedImage s = Some f ->
          App1.error (snd (App1.handleAnalyze cfg fo s)) = Some "Request timed out. Please try again.")) /\
    (forall t e, fo = FReject t e -> (t < UI_LOADING_TIMEOUT cfg)%Z ->
       err_name e = "TypeError" -> str_includes "fetch" (err_message e) = true ->
       snd (analyzeImage cfg (Some f) fo) = inr (new_Error (ERRORS_NETWORK_ERROR cfg))) /\
    (forall t e, fo = FReject t e -> (t < UI_LOADING_TIMEOUT cfg)%Z ->
       err_name e = "TypeError" -> str_includes "fetch" (err_message e) = false ->
       snd (analyzeImage cfg (Some f) fo) = inr e)) /\
  (forall w f fo,
    App2.selectedFile (App2.st w) = Some f ->
    App2.log (App2.handleAnalyze fo w) = (App2.log w ++ [EFetch (App2.origin ++ "/process")])%list /\
    (forall t t' r, fo = FResolve t r -> App2.handleAnalyze fo w = App2.handleAnalyze (FResolve t' r) w) /\
    (forall t t' e, fo = FReject t e -> App2.handleAnalyze fo w = App2.handleAnalyze (FReject t' e) w) /\
    (fo = FHang -> App2.isLoading (App2.st (App2.handleAnalyze fo w)) = true)).
Proof.
  split.
  - intros cfg f fo Hv.
    assert (Hto : settles_after (UI_LOADING_TIMEOUT cfg) fo = true ->
                  analyzeImage cfg (Some f) fo
                  = ([ESetTimer (UI_LOADING_TIMEOUT cfg); EFetch (API_BASE_URL cfg ++ ENDPOINTS_ANALYZE cfg); EAbort],
                     inr (new_Error "Request timed out. Please try again."))).
    { intro H; unfold analyzeImage, analyze_try; rewrite Hv.
      destruct fo as [t r|t e|]; simpl in H; try reflexivity;
        apply Z.leb_le in H;
        (replace (t <? UI_LOADING_TIMEOUT cfg)%Z with false
           by (symmetry; apply Z.ltb_ge; exact H)); reflexivity. }
    split; [|split; [|split]].
    + unfold analyzeImage, analyze_try; rewrite Hv.
      destruct fo as [t r|t e|]; [destruct (t <? _)%Z..|]; reflexivity.
    + intro H; split; [exact (Hto H)|].
      intros s Hs; unfold App1.handleAnalyze; rewrite Hs, (Hto H); reflexivity.
    + intros t e -> Ht Hn Hf.
      unfold analyzeImage, analyze_try; rewrite Hv.
      apply Z.ltb_lt in Ht; simpl; rewrite Ht; simpl.
      unfold analyze_catch; rewrite Hn, Hf; reflexivity.
    + intros t e -> Ht Hn Hf.
      unfold analyzeImage, analyze_try; rewrite Hv.
      apply Z.ltb_lt in Ht; simpl; rewrite Ht; simpl.
      unfold analyze_catch; rewrite Hn, Hf; reflexivity.
  - intros w f fo Hs.
    split; [|split; [|split]].
    + unfold App2.handleAnalyze; rewrite Hs; destruct fo; reflexivity.
    + intros t t' r ->; reflexivity.
    + intros t t' e ->; reflexivity.
    + intros ->; unfold App2.handleAnalyze; rewrite Hs; reflexivity.
Qed.

(** ** C5 *)

(** C5: an image path [p] (non-empty; an empty path shows no image) is used
    as it is when it starts with ["http"] and is otherwise appended to the
    base origin: App 1's age-annotated image (origin [config.API_BASE_URL])
    and autism-annotated image; App 2's adult-branch image and its
    autism-annotated image (origin [https://age-api-zzc8.onrender.com]),
    the latter unless rendering failed altogether. *)
Theorem image_url_resolution :
  (forall cfg fo s f res p,
      App1.selectedImage s = Some f ->
      snd (analyzeImage cfg (Some f) fo) = inl res ->
      get (get res "age_check_summary") "annotated_image_url" = JStr p -> p <> "" ->
      App1.ageAnnotatedImageUrl (snd (App1.handleAnalyze cfg fo s))
      = Some (if String.prefix "http" p then p else API_BASE_URL cfg ++ p)) /\
  (forall cfg fo s f res p u,
      App1.selectedImage s = Some f ->
      snd (analyzeImage cfg (Some f) fo) = inl res ->
      get (get res "autism_prediction_data") "annotated_image_path" = JStr p ->
      App1.autismAnnotatedImageUrl (snd (App1.handleAnalyze cfg fo s)) = Some u ->
      u = if String.prefix "http" p then p else API_BASE_URL cfg ++ p) /\
  (forall r p,
      get r "status" = JStr "adult_invalid" ->
      get r "annotated_image_url" = JStr p -> p <> "" ->
      App2.renderResults false r
      = [App2.EImg (if String.prefix "http" p then p else App2.origin ++ p) "Age analysis result";
         App2.EAdultInvalid; App2.EAgeSummary (get r "age_check_summary")]) /\
  (forall r p,
      get r "status" = JStr "child_autism_screened" ->
      get (get r "autism_prediction_data") "annotated_image_path" = JStr p -> p <> "" ->
      (exists rest, App2.renderResults false r
                    = App2.EImg (if String.prefix "http" p then p else App2.origin ++ p)
                                "Analysis result" :: rest)
      \/ App2.renderResults false r = [App2.ENotice App2.msg_render_error]).
Proof.
  split; [|split; [|split]].
  - intros cfg fo s f res p Hsel Hres Hp Hne.
    apply (App1Facts.handleAnalyze_success_post
             (fun s0 => App1.ageAnnotatedImageUrl s0
                        = Some (if String.prefix "http" p then p else API_BASE_URL cfg ++ p))
             cfg fo s f res Hsel Hres).
    + apply App1Facts.on_response_age_url; assumption.
    + intros; assumption.
    + intros; assumption.
  - intros cfg fo s f res p u Hsel Hres Hp Hu.
    assert (H : App1.autismAnnotatedImageUrl (snd (App1.handleAnalyze cfg fo s)) = None \/
                App1.autismAnnotatedImageUrl (snd (App1.handleAnalyze cfg fo s))
                = Some (if String.prefix "http" p then p else API_BASE_URL cfg ++ p)).
    { apply (App1Facts.handleAnalyze_success_pres
               (fun s0 => App1.autismAnnotatedImageUrl s0 = None \/
                          App1.autismAnnotatedImageUrl s0
                          = Some (if String.prefix "http" p then p else API_BASE_URL cfg ++ p))
               cfg fo s f res Hsel Hres).
      - left; reflexivity.
      - apply App1Facts.on_response_autism_url; assumption.
      - intros; assumption.
      - intros; assumption. }
    rewrite Hu in H; destruct H as [H|H]; congruence.
  - intros r p Hst Hp Hne.
    assert (Hn : get r "status" <> JUndef) by (rewrite Hst; discriminate).
    unfold App2.renderResults; rewrite (truthy_of_status r Hn); simpl negb; cbv iota.
    unfold App2.render_body; rewrite (prop_nonnull r "status" Hn); unfold bind at 1, ret at 1.
    rewrite Hst; simpl is_str; cbv iota beta.
    rewrite (prop_nonnull r "annotated_image_url" Hn), (prop_nonnull r "age_check_summary" Hn), Hp.
    cbv [bind ret]; rewrite (truthy_str p Hne), resolve_url_str; reflexivity.
  - intros r p Hst Hp Hne.
    assert (Hn : get r "status" <> JUndef) by (rewrite Hst; discriminate).
    assert (Ha : optprop (get r "autism_prediction_data") "annotated_image_path" = JStr p).
    { destruct (get r "autism_prediction_data"); simpl in *; try discriminate; exact Hp. }
    unfold App2.renderResults, App2.render_body; cbv [bind ret].
    rewrite (truthy_of_status r Hn), (prop_nonnull r "status" Hn), Hst,
      (prop_nonnull r "autism_prediction_data" Hn), (prop_nonnull r "age_check_summary" Hn),
      Ha, (truthy_str p Hne), resolve_url_str.
    simpl negb; simpl is_str; cbv iota beta.
    destruct (if truthy (optprop (get r "autism_prediction_data") "results")
              then App2.final_decision_block (optprop (get r "autism_prediction_data") "results")
              else inl []) as [fin|e].
    + left; eexists; reflexivity.
    + right; reflexivity.
Qed.

(** ** C6 *)

(** C6, as stated, fails: App 1's [handleImageSelect] validates nothing, and
    a 15MB [text/plain] file becomes the selected image with a preview. *)
Lemma app1_selects_unvalidated_file :
  App1.selectedImage (App1.st (App1.handleImageSelect [sample_text_15MB] App1.world0))
    = Some sample_text_15MB
  /\ App1.previewUrl (App1.st (App1.handleImageSelect [sample_text_15MB] App1.world0))
       = Some (UObj 0)
  /\ App1.error (App1.st (App1.handleImageSelect [sample_text_15MB] App1.world0)) = None.
Proof. vm_compute; repeat split. Qed.

(** C6 (amended): App 2's [handleFileSelect] validates a file before
    accepting it: a type not starting with ["image/"] is rejected with the
    type message, an image above 10MB with the size message (a different
    string), and a rejected file leaves the selected file, the preview and
    the object-URL log unchanged.  App 1 accepts any file on selection
    (the first one picked becomes the selected image, with a preview and no
    error);
    [validateFile] of [api.js] runs when [analyzeImage] is called: a type
    outside [config.UPLOAD.ALLOWED_TYPES] fails with
    [config.ERRORS.INVALID_FILE_TYPE], an allowed type above
    [config.UPLOAD.MAX_FILE_SIZE] with [config.ERRORS.FILE_TOO_LARGE], before
    any request, and the selected image and preview stay as they were. *)
Theorem file_validation :
  (forall w f,
      String.prefix "image/" (file_type f) = false ->
      App2.error (App2.st (App2.handleFileSelect (Some f) w)) = Some App2.msg_invalid_type /\
      App2.selectedFile (App2.st (App2.handleFileSelect (Some f) w)) = App2.selectedFile (App2.st w) /\
      App2.previewUrl (App2.st (App2.handleFileSelect (Some f) w)) = App2.previewUrl (App2.st w) /\
      App2.log (App2.handleFileSelect (Some f) w) = App2.log w) /\
  (forall w f,
      String.prefix "image/" (file_type f) = true ->
      (10 * 1024 * 1024 < file_size f)%Z ->
      App2.error (App2.st (App2.handleFileSelect (Some f) w)) = Some App2.msg_too_large /\
      App2.selectedFile (App2.st (App2.handleFileSelect (Some f) w)) = App2.selectedFile (App2.st w) /\
      App2.previewUrl (App2.st (App2.handleFileSelect (Some f) w)) = App2.previewUrl (App2.st w) /\
      App2.log (App2.handleFileSelect (Some f) w) = App2.log w) /\
  App2.msg_invalid_type <> App2.msg_too_large /\
  (forall w f fs,
      App1.selectedImage (App1.st (App1.handleImageSelect (f :: fs) w)) = Some f /\
      App1.previewUrl (App1.st (App1.handleImageSelect (f :: fs) w))
        = Some (UObj (App1.next_handle w)) /\
      App1.error (App1.st (App1.handleImageSelect (f :: fs) w)) = None) /\
  (forall cfg fo s f,
      App1.selectedImage s = Some f ->
      existsb (String.eqb (file_type f)) (UPLOAD_ALLOWED_TYPES cfg) = false ->
      fst (App1.handleAnalyze cfg fo s) = [] /\
      App1.error (snd (App1.handleAnalyze cfg fo s)) = Some (ERRORS_INVALID_FILE_TYPE cfg) /\
      App1.selectedImage (snd (App1.handleAnalyze cfg fo s)) = Some f /\
      App1.previewUrl (snd (App1.handleAnalyze cfg fo s)) = App1.previewUrl s) /\
  (forall cfg fo s f,
      App1.selectedImage s = Some f ->
      existsb (String.eqb (file_type f)) (UPLOAD_ALLOWED_TYPES cfg) = true ->
      (UPLOAD_MAX_FILE_SIZE cfg < file_size f)%Z ->
      fst (App1.handleAnalyze cfg fo s) = [] /\
      App1.error (snd (App1.handleAnalyze cfg fo s)) = Some (ERRORS_FILE_TOO_LARGE cfg) /\
      App1.selectedImage (snd (App1.handleAnalyze cfg fo s)) = Some f /\
      App1.previewUrl (snd (App1.handleAnalyze cfg fo s)) = App1.previewUrl s).
Proof.
  split; [|split; [|split; [|split; [|split]]]].
  - intros w f Ht.
    unfold App2.handleFileSelect, App2.validateFile; rewrite Ht; simpl.
    repeat split; reflexivity.
  - intros w f Ht Hs.
    apply Z.ltb_lt in Hs.
    unfold App2.handleFileSelect, App2.validateFile; rewrite Ht, Hs; simpl.
    repeat split; reflexivity.
  - unfold App2.msg_invalid_type, App2.msg_too_large; discriminate.
  - intros w f fs; repeat split.
  - intros cfg fo s f Hsel Ht.
    unfold App1.handleAnalyze, analyzeImage, analyze_try, validateFile; rewrite Hsel, Ht; simpl.
    repeat split; rewrite ?Hsel; reflexivity.
  - intros cfg fo s f Hsel Ht Hs.
    apply Z.ltb_lt in Hs.
    unfold App1.handleAnalyze, analyzeImage, analyze_try, validateFile; rewrite Hsel, Ht, Hs; simpl.
    repeat split; rewrite ?Hsel; reflexivity.
Qed.

(** ** C7 *)

Lemma prop_truthy v k : truthy v = true -> prop v k = inl (get v k).
Proof. destruct v; simpl; try reflexivity; discriminate. Qed.

(** C7, as stated, fails: an exception during rendering is not turned into
    the "unexpected format" notice but into a different one: for a final
    decision that is a number, [toLowerCase] throws and [renderResults]
    shows "Error displaying results. Please try again.". *)
Lemma render_exception_notice_differs :
  App2.renderResults false numeric_decision_payload = [App2.ENotice App2.msg_render_error]
  /\ App2.msg_render_error <> App2.msg_unexpected.
Proof. split; [vm_compute; reflexivity | discriminate]. Qed.

(** C7 (amended): [renderResults] returns the "Unexpected result format.
    Please try again." notice for a result whose [status] is neither
    ['child_autism_screened'] nor ['adult_invalid'], and turns an exception
    raised while it evaluates a branch into a different notice, "Error
    displaying results. Please try again.". *)
Theorem renderResults_fallbacks :
  (forall r,
      truthy r = true ->
      is_str (get r "status") "child_autism_screened" = false ->
      is_str (get r "status") "adult_invalid" = false ->
      App2.renderResults false r = [App2.ENotice App2.msg_unexpected]) /\
  (forall r e,
      truthy r = true ->
      App2.render_body r = inr e ->
      App2.renderResults false r = [App2.ENotice App2.msg_render_error]) /\
  App2.msg_render_error <> App2.msg_unexpected.
Proof.
  split; [|split].
  - intros r Ht Hc Ha.
    unfold App2.renderResults, App2.render_body; cbv [bind ret].
    rewrite Ht, (prop_truthy r "status" Ht), Hc, Ha; reflexivity.
  - intros r e Ht Hb.
    unfold App2.renderResults; rewrite Ht, Hb; reflexivity.
  - discriminate.
Qed.

(** ** C8 *)

(** C8: from any state, reset gives the initial values of the selected
    image, the preview, the analysis results, the annotated image URLs, the
    backend message and the error, in both apps; resetting again changes
    nothing, nor does it release anything more. *)
Theorem reset_empty_idempotent :
  (forall w,
      App1.selectedImage (App1.st (App1.handleReset w)) = App1.selectedImage App1.init /\
      App1.previewUrl (App1.st (App1.handleReset w)) = App1.previewUrl App1.init /\
      App1.ageAnalysis (App1.st (App1.handleReset w)) = App1.ageAnalysis App1.init /\
      App1.autismAnalysis (App1.st (App1.handleReset w)) = App1.autismAnalysis App1.init /\
      App1.ageAnnotatedImageUrl (App1.st (App1.handleReset w)) = App1.ageAnnotatedImageUrl App1.init /\
      App1.autismAnnotatedImageUrl (App1.st (App1.handleReset w)) = App1.autismAnnotatedImageUrl App1.init /\
      App1.backendMessage (App1.st (App1.handleReset w)) = App1.backendMessage App1.init /\
      App1.error (App1.st (App1.handleReset w)) = App1.error App1.init /\
      App1.handleReset (App1.handleReset w) = App1.handleReset w) /\
  (forall w,
      App2.selectedFile (App2.st (App2.handleReset w)) = App2.selectedFile App2.init /\
      App2.previewUrl (App2.st (App2.handleReset w)) = App2.previewUrl App2.init /\
      App2.result (App2.st (App2.handleReset w)) = App2.result App2.init /\
      App2.error (App2.st (App2.handleReset w)) = App2.error App2.init /\
      App2.handleReset (App2.handleReset w) = App2.handleReset w).
Proof.
  split.
  - intros [s n l]; repeat split.
    unfold App1.handleReset; simpl; rewrite app_nil_r; reflexivity.
  - intros [s n l]; repeat split.
Qed.

(** ** C9 *)

Lemma revoked_handles_app l1 l2 :
  revoked_handles (l1 ++ l2)%list = (revoked_handles l1 ++ revoked_handles l2)%list.
Proof. apply flat_map_app. Qed.

(** [analyzeImage] neither creates nor revokes object URLs. *)
Lemma analyzeImage_no_urls cfg f fo :
  revoked_handles (fst (analyzeImage cfg f fo)) = [] /\
  (forall h, ~ In (ECreateURL h) (fst (analyzeImage cfg f fo))).
Proof.
  unfold analyzeImage, analyze_try.
  destruct (validateFile cfg f); [|split; [reflexivity| intros h []]].
  destruct fo as [t r|t e|]; [destruct (t <? _)%Z..|]; simpl;
    (split; [reflexivity| intros h H; repeat (destruct H as [H|H]; [discriminate|]); exact H]).
Qed.

Lemma handleAnalyze_effects cfg fo s :
  fst (App1.handleAnalyze cfg fo s) = []
  \/ exists f, fst (App1.handleAnalyze cfg fo s) = fst (analyzeImage cfg (Some f) fo).
Proof.
  unfold App1.handleAnalyze.
  destruct (App1.selectedImage s) as [f|]; [right; exists f|left; reflexivity].
  destruct (analyzeImage cfg (Some f) fo) as [effs r].
  destruct r as [res|e]; [destruct (App1.on_response cfg res _) as [s2 [|]]|]; reflexivity.
Qed.

Lemma handleAnalyze_previewUrl cfg fo s :
  App1.previewUrl (snd (App1.handleAnalyze cfg fo s)) = App1.previewUrl s.
Proof.
  unfold App1.handleAnalyze.
  destruct (App1.selectedImage s) as [f|]; [|reflexivity].
  destruct (analyzeImage cfg (Some f) fo) as [effs r].
  destruct r as [res|e]; [|reflexivity].
  assert (H : App1Facts.preserves (fun s0 => App1.previewUrl s0 = App1.previewUrl s)
                                  (App1.on_response cfg res)).
  { unfold App1.on_response; App1Facts.pres_auto. }
  specialize (H (fst (App1.se_bind (App1.upd (App1.setIsProcessing true))
                                   (fun _ => App1.resetStateExceptImage) s)) eq_refl).
  destruct (App1.on_response cfg res _) as [s2 [|]]; simpl in *; exact H.
Qed.

(** The object-URL invariant of App 1: handles in the log are below the
    next fresh one, only created handles are revoked, none twice, and the
    preview, when it is an object URL, is a live one. *)
Lemma app1_url_inv_step cfg w e : app1_url_inv w -> app1_url_inv (App1.step cfg w e).
Proof.
  intros Hinv; pose proof Hinv as (Hlt & Hcr & Hnd & Hpv).
  destruct e as [fs|shot n|fo| | |]; simpl.
  - (* select *)
    destruct fs as [|f fs]; [exact Hinv|].
    unfold app1_url_inv; simpl; rewrite revoked_handles_app; simpl; rewrite app_nil_r.
    split; [|split; [|split]].
    + intros x Hx; apply in_app_iff in Hx as [Hx|[Hx|[]]];
        [specialize (Hlt x Hx); lia | injection Hx as <-; lia].
    + intros x Hx; apply in_app_iff; left; auto.
    + exact Hnd.
    + intros x Hx; injection Hx as <-; split.
      * apply in_app_iff; right; left; reflexivity.
      * intro Hr; specialize (Hlt _ (Hcr _ Hr)); lia.
  - (* capture *)
    unfold app1_url_inv; simpl; split; [|split; [|split]]; auto; discriminate.
  - (* analyze *)
    unfold App1.analyze_world, app1_url_inv.
    pose proof (handleAnalyze_previewUrl cfg fo (App1.st w)) as Hp.
    assert (Heff : revoked_handles (fst (App1.handleAnalyze cfg fo (App1.st w))) = [] /\
                   forall h, ~ In (ECreateURL h) (fst (App1.handleAnalyze cfg fo (App1.st w)))).
    { destruct (handleAnalyze_effects cfg fo (App1.st w)) as [E|[f E]]; rewrite E;
        [split; [reflexivity|intros h []]|apply analyzeImage_no_urls]. }
    destruct (App1.handleAnalyze cfg fo (App1.st w)) as [effs s']; simpl in *.
    destruct Heff as [Hr Hc].
    rewrite revoked_handles_app, Hr, app_nil_r.
    split; [|split; [|split]].
    + intros x Hx; apply in_app_iff in Hx as [Hx|Hx]; [auto|exfalso; exact (Hc x Hx)].
    + intros x Hx; apply in_app_iff; left; auto.
    + exact Hnd.
    + intros x Hx; rewrite Hp in Hx; destruct (Hpv x Hx) as [H1 H2]; split; [|exact H2].
      apply in_app_iff; left; exact H1.
  - (* reset *)
    unfold App1.handleReset, app1_url_inv; simpl.
    destruct (App1.previewUrl (App1.st w)) as [[h|d]|] eqn:Ep; simpl.
    + destruct (Hpv h eq_refl) as [Hin Hnr].
      rewrite revoked_handles_app; simpl.
      split; [|split; [|split]].
      * intros x Hx; apply in_app_iff in Hx as [Hx|[Hx|[]]]; [auto|discriminate].
      * intros x Hx; apply in_app_iff in Hx as [Hx|[Hx|[]]]; apply in_app_iff; left;
          [auto|subst; exact Hin].
      * apply NoDup_app; [exact Hnd|constructor; [intros []|constructor]|].
        intros x Hx [Hy|[]]; subst; contradiction.
      * discriminate.
    + destruct (negb (d =? "")); simpl; rewrite ?revoked_handles_app; simpl; rewrite ?app_nil_r;
        (split; [|split; [|split]]); try discriminate; try exact Hnd.
      * intros x Hx; apply in_app_iff in Hx as [Hx|[Hx|[]]]; [auto|discriminate].
      * intros x Hx; apply in_app_iff; left; auto.
      * exact Hlt.
      * exact Hcr.
    + rewrite app_nil_r; split; [|split; [|split]]; auto; discriminate.
  - exact Hinv.
  - exact Hinv.
Qed.

Lemma app1_url_inv_run cfg evs w : app1_url_inv w -> app1_url_inv (App1.run cfg evs w).
Proof.
  revert w; induction evs as [|e evs IH]; intros w H; simpl; auto.
  apply IH, app1_url_inv_step, H.
Qed.

Lemma app2_step_no_revoke w e u :
  ~ In (ERevoke u) (App2.log w) -> ~ In (ERevoke u) (App2.log (App2.step w e)).
Proof.
  intro H.
  assert (Hsel : forall f w', ~ In (ERevoke u) (App2.log w') ->
                 ~ In (ERevoke u) (App2.log (App2.handleFileSelect f w'))).
  { intros f w' H'; unfold App2.handleFileSelect.
    destruct (App2.validateFile f); simpl; auto.
    rewrite in_app_iff; intros [Hh|[Hh|[]]]; [auto|discriminate]. }
  destruct e as [fs|fs|fo| |]; simpl.
  - unfold App2.handleFileInputChange; apply Hsel; exact H.
  - unfold App2.handleDrop; destruct fs; [exact H|apply Hsel; exact H].
  - unfold App2.handleAnalyze.
    destruct (App2.selectedFile (App2.st w)); simpl; [|exact H].
    destruct fo; simpl;
      rewrite in_app_iff; intros [Hh|[Hh|[]]]; [auto|discriminate|auto|discriminate|auto|discriminate].
  - exact H.
  - exact H.
Qed.

(** C9, as stated, fails: App 2 never revokes the object URL of a preview,
    neither when it is replaced nor on reset; App 1 does not revoke a
    preview replaced by a new selection. *)
Lemma preview_handle_leaks :
  App2.log (App2.run [App2.ESelect [sample_image]; App2.EReset] App2.world0) = [ECreateURL 0]
  /\ App2.previewUrl (App2.st (App2.run [App2.ESelect [sample_image]; App2.EReset] App2.world0)) = None
  /\ App1.log (App1.run sample_config
                 [App1.ESelect [sample_image]; App1.ESelect [sample_image]; App1.EReset]
                 App1.world0)
     = [ECreateURL 0; ECreateURL 1; ERevoke (UObj 1)].
Proof. vm_compute; repeat split. Qed.

(** C9 (amended): App 1 releases a preview object URL only in
    [handleReset], which revokes the preview held at that moment; over any
    sequence of events no object URL is revoked twice and only created ones
    are revoked.  App 2 never revokes any object URL. *)
Theorem preview_release :
  (forall w h,
      App1.previewUrl (App1.st w) = Some (UObj h) ->
      App1.log (App1.handleReset w) = (App1.log w ++ [ERevoke (UObj h)])%list /\
      App1.previewUrl (App1.st (App1.handleReset w)) = None) /\
  (forall cfg evs,
      NoDup (revoked_handles (App1.log (App1.run cfg evs App1.world0))) /\
      (forall h, In h (revoked_handles (App1.log (App1.run cfg evs App1.world0))) ->
                 In (ECreateURL h) (App1.log (App1.run cfg evs App1.world0)))) /\
  (forall evs u, ~ In (ERevoke u) (App2.log (App2.run evs App2.world0))).
Proof.
  split; [|split].
  - intros w h Hp; unfold App1.handleReset; rewrite Hp; split; reflexivity.
  - intros cfg evs.
    assert (H0 : app1_url_inv App1.world0).
    { unfold app1_url_inv; simpl; repeat split; try (intros ? []); try discriminate; constructor. }
    destruct (app1_url_inv_run cfg evs _ H0) as (_ & Hcr & Hnd & _); auto.
  - intros evs u.
    assert (G : forall w, ~ In (ERevoke u) (App2.log w) ->
                          ~ In (ERevoke u) (App2.log (App2.run evs w))).
    { induction evs as [|e evs IH]; intros w H; simpl; auto.
      apply IH, app2_step_no_revoke, H. }
    apply G; intros [].
Qed.

(** ** C10 *)

(** C10: the type check comes before the size check in both
    implementations: a file of a disallowed type is rejected with the type
    error whatever its size ([validateFile] of [api.js] and of App 2). *)
Theorem validation_type_before_size :
  (forall cfg f,
      existsb (String.eqb (file_type f)) (UPLOAD_ALLOWED_TYPES cfg) = false ->
      validateFile cfg (Some f) = inr (new_Error (ERRORS_INVALID_FILE_TYPE cfg))) /\
  (forall f,
      String.prefix "image/" (file_type f) = false ->
      App2.validateFile (Some f) = Some App2.msg_invalid_type).
Proof.
  split.
  - intros cfg f H; unfold validateFile; rewrite H; reflexivity.
  - intros f H; unfold App2.validateFile; rewrite H; reflexivity.
Qed.

(* ================================================================== *)
(** * Instances *)

Lemma adult_invalid_no_autism_output_witness :
  App1.autism_output_shown
    (snd (App1.handleAnalyze sample_config (FResolve 0 (ok_response adult_payload))
                             (App1.st app1_with_image))) = false /\
  App2.autism_output_shown (App2.renderResults false adult_payload) = false.
Proof.
  split.
  - apply (proj1 adult_invalid_no_autism_output sample_config _ _ sample_image adult_payload);
      vm_compute; reflexivity.
  - apply (proj2 adult_invalid_no_autism_output); vm_compute; reflexivity.
Defined.

Lemma analyzeImage_2xx_body_checks_witness :
  snd (analyzeImage sample_config (Some sample_image) (FResolve 0 (ok_response (JStr "ok"))))
    = inr (new_Error "Invalid response format from server") /\
  snd (analyzeImage sample_config (Some sample_image)
         (FResolve 0 (ok_response (JObj [("error", JNum (10 ^ 21))]))))
    = inr (new_Error "1e+21") /\
  snd (analyzeImage sample_config (Some sample_image)
         (FResolve 0 (ok_response (JObj [("error", JObj [("toString", JNum 1)])]))))
    = inr (type_error "Cannot convert object to primitive value") /\
  snd (analyzeImage sample_config (Some sample_image)
         (FResolve 0 (ok_response (JObj [("error", JStr "No face detected")]))))
    = inr (new_Error "No face detected") /\
  snd (analyzeImage sample_config (Some sample_image) (FResolve 0 (ok_response child_payload)))
    = inl child_payload.
Proof.
  split; [|split; [|split; [|split]]].
  - refine (proj1 (analyzeImage_2xx_body_checks sample_config sample_image 0
                     (ok_response (JStr "ok")) (JStr "ok") _ _ _ _) _);
      vm_compute; try reflexivity; right; reflexivity.
  - refine (proj1 (proj2 (analyzeImage_2xx_body_checks sample_config sample_image 0
                     (ok_response (JObj [("error", JNum (10 ^ 21))]))
                     (JObj [("error", JNum (10 ^ 21))]) _ _ _ _)) "1e+21" _ _ _ _);
      vm_compute; reflexivity.
  - refine (proj1 (proj2 (proj2 (analyzeImage_2xx_body_checks sample_config sample_image 0
                     (ok_response (JObj [("error", JObj [("toString", JNum 1)])]))
                     (JObj [("error", JObj [("toString", JNum 1)])]) _ _ _ _)))
                  (type_error "Cannot convert object to primitive value") _ _ _ _);
      vm_compute; reflexivity.
  - refine (proj1 (proj2 (proj2 (proj2 (analyzeImage_2xx_body_checks sample_config sample_image 0
                     (ok_response (JObj [("error", JStr "No face detected")]))
                     (JObj [("error", JStr "No face detected")]) _ _ _ _)))) _ _ _ _);
      try (vm_compute; reflexivity); discriminate.
  - refine (proj2 (proj2 (proj2 (proj2 (analyzeImage_2xx_body_checks sample_config sample_image 0
                     (ok_response child_payload) child_payload _ _ _ _)))) _ _ _);
      vm_compute; reflexivity.
Defined.

Lemma analyzeImage_timeout_witness :
  analyzeImage sample_config (Some sample_image) FHang
    = ([ESetTimer 30000; EFetch "http://localhost:5000/api/analyze"; EAbort],
       inr (new_Error "Request timed out. Please try again.")) /\
  App1.error (snd (App1.handleAnalyze sample_config FHang (App1.st app1_with_image)))
    = Some "Request timed out. Please try again." /\
  snd (analyzeImage sample_config (Some sample_image) (FReject 120 (type_error "Failed to fetch")))
    = inr (new_Error (ERRORS_NETWORK_ERROR sample_config)) /\
  snd (analyzeImage sample_config (Some sample_image) (FReject 120 (type_error "Load failed")))
    = inr (type_error "Load failed") /\
  App2.log (App2.handleAnalyze FHang app2_with_image)
    = (App2.log app2_with_image ++ [EFetch "https://age-api-zzc8.onrender.com/process"])%list /\
  App2.handleAnalyze (FResolve 600000 (ok_response child_payload)) app2_with_image
    = App2.handleAnalyze (FResolve 0 (ok_response child_payload)) app2_with_image /\
  App2.isLoading (App2.st (App2.handleAnalyze FHang app2_with_image)) = true.
Proof.
  destruct (proj1 analyzeImage_timeout sample_config sample_image FHang) as (_ & Hto & _);
    [vm_compute; reflexivity|].
  destruct (Hto ltac:(vm_compute; reflexivity)) as [H1 H2].
  split; [exact H1|split; [|split; [|split; [|split; [|split]]]]].
  - apply H2; vm_compute; reflexivity.
  - refine (proj1 (proj2 (proj2 (proj1 analyzeImage_timeout sample_config sample_image _ _)))
              120%Z (type_error "Failed to fetch") _ _ _ _); vm_compute; reflexivity.
  - refine (proj2 (proj2 (proj2 (proj1 analyzeImage_timeout sample_config sample_image _ _)))
              120%Z (type_error "Load failed") _ _ _ _); vm_compute; reflexivity.
  - exact (proj1 (proj2 analyzeImage_timeout app2_with_image sample_image FHang
                    ltac:(vm_compute; reflexivity))).
  - exact (proj1 (proj2 (proj2 analyzeImage_timeout app2_with_image sample_image
                    (FResolve 600000 (ok_response child_payload)) ltac:(vm_compute; reflexivity)))
                 600000%Z 0%Z (ok_response child_payload) eq_refl).
  - exact (proj2 (proj2 (proj2 (proj2 analyzeImage_timeout app2_with_image sample_image FHang
                    ltac:(vm_compute; reflexivity)))) eq_refl).
Defined.

Lemma image_url_resolution_witness :
  App1.ageAnnotatedImageUrl
    (snd (App1.handleAnalyze sample_config (FResolve 0 (ok_response child_payload))
                             (App1.st app1_with_image)))
    = Some "https://cdn.example.org/age_2.jpg" /\
  "http://localhost:5000/static/autism_2.jpg"
    = (if String.prefix "http" "/static/autism_2.jpg" then "/static/autism_2.jpg"
       else API_BASE_URL sample_config ++ "/static/autism_2.jpg") /\
  App2.renderResults false adult_payload
    = [App2.EImg "https://age-api-zzc8.onrender.com/static/age_1.jpg" "Age analysis result";
       App2.EAdultInvalid; App2.EAgeSummary (get adult_payload "age_check_summary")] /\
  ((exists rest, App2.renderResults false child_payload
                 = App2.EImg "https://age-api-zzc8.onrender.com/static/autism_2.jpg"
                             "Analysis result" :: rest)
   \/ App2.renderResults false child_payload = [App2.ENotice App2.msg_render_error]).
Proof.
  split; [|split; [|split]].
  - refine (eq_trans (proj1 image_url_resolution sample_config _ _ sample_image child_payload
                        "https://cdn.example.org/age_2.jpg" _ _ _ _) _);
      vm_compute; first [reflexivity | discriminate].
  - refine (proj1 (proj2 image_url_resolution) sample_config
              (FResolve 0 (ok_response child_payload)) (App1.st app1_with_image) sample_image
              child_payload "/static/autism_2.jpg" "http://localhost:5000/static/autism_2.jpg"
              _ _ _ _); vm_compute; reflexivity.
  - refine (eq_trans (proj1 (proj2 (proj2 image_url_resolution)) adult_payload
                        "/static/age_1.jpg" _ _ _) _);
      vm_compute; first [reflexivity | discriminate].
  - refine (proj2 (proj2 (proj2 image_url_resolution)) child_payload "/static/autism_2.jpg" _ _ _);
      vm_compute; first [reflexivity | discriminate].
Defined.

Lemma file_validation_witness :
  App2.error (App2.st (App2.handleFileSelect (Some sample_text_15MB) app2_with_image))
    = Some App2.msg_invalid_type /\
  App2.selectedFile (App2.st (App2.handleFileSelect (Some sample_big_image) app2_with_image))
    = Some sample_image /\
  App1.selectedImage (App1.st (App1.handleImageSelect [sample_text_15MB] App1.world0))
    = Some sample_text_15MB /\
  App1.error (snd (App1.handleAnalyze sample_config FHang
                     (App1.st (App1.handleImageSelect [sample_text_15MB] App1.world0))))
    = Some (ERRORS_INVALID_FILE_TYPE sample_config) /\
  App1.error (snd (App1.handleAnalyze sample_config FHang
                     (App1.st (App1.handleImageSelect [sample_big_image] App1.world0))))
    = Some (ERRORS_FILE_TOO_LARGE sample_config).
Proof.
  split; [|split; [|split; [|split]]].
  - refine (proj1 (proj1 file_validation app2_with_image sample_text_15MB _));
      vm_compute; reflexivity.
  - refine (eq_trans (proj1 (proj2 (proj1 (proj2 file_validation) app2_with_image
                                      sample_big_image _ _))) _);
      vm_compute; reflexivity.
  - exact (proj1 (proj1 (proj2 (proj2 (proj2 file_validation))) App1.world0 sample_text_15MB [])).
  - refine (proj1 (proj2 (proj1 (proj2 (proj2 (proj2 (proj2 file_validation)))) sample_config FHang
                            _ sample_text_15MB _ _))); vm_compute; reflexivity.
  - refine (proj1 (proj2 (proj2 (proj2 (proj2 (proj2 (proj2 file_validation)))) sample_config FHang
                            _ sample_big_image _ _ _))); vm_compute; reflexivity.
Defined.

Lemma renderResults_fallbacks_witness :
  App2.renderResults false (JObj [("status", JStr "pending")]) = [App2.ENotice App2.msg_unexpected] /\
  App2.renderResults false numeric_decision_payload = [App2.ENotice App2.msg_render_error].
Proof.
  split.
  - apply (proj1 renderResults_fallbacks); vm_compute; reflexivity.
  - apply (proj1 (proj2 renderResults_fallbacks) _ (type_error "toLowerCase is not a function"));
      vm_compute; reflexivity.
Defined.

Lemma preview_release_witness :
  App1.log (App1.handleReset app1_with_image) = [ECreateURL 0; ERevoke (UObj 0)] /\
  App1.previewUrl (App1.st (App1.handleReset app1_with_image)) = None.
Proof.
  destruct (proj1 preview_release app1_with_image 0%nat) as [H1 H2]; [vm_compute; reflexivity|].
  split; [rewrite H1; vm_compute; reflexivity | exact H2].
Defined.

Lemma validation_type_before_size_witness :
  validateFile sample_config (Some sample_text_15MB)
    = inr (new_Error (ERRORS_INVALID_FILE_TYPE sample_config)) /\
  App2.validateFile (Some sample_text_15MB) = Some App2.msg_invalid_type.
Proof.
  split.
  - apply (proj1 validation_type_before_size); vm_compute; reflexivity.
  - apply (proj2 validation_type_before_size); vm_compute; reflexivity.
Defined.


(* ================================================================== *)
(** * Further properties of the client *)

Lemma analyzeImage_ok_object cfg f fo res :
  snd (analyzeImage cfg f fo) = inl res -> truthy res = true /\ typeof_object res = true.
Proof.
  unfold analyzeImage, analyze_try.
  destruct (validateFile cfg f); [|discriminate].
  destruct fo as [t r|t e|]; [destruct (t <? _)%Z|destruct (t <? _)%Z|]; simpl; try discriminate.
  unfold analyze_after_fetch.
  destruct (negb (resp_ok r)); [destruct (_ =? 404)%Z; [|destruct (500 <=? _)%Z]; discriminate|].
  unfold response_json; destruct (resp_body r) as [d|m]; simpl; [|discriminate].
  destruct (truthy d) eqn:Ht, (typeof_object d) eqn:Ho; simpl; try discriminate.
  destruct (truthy (get d "error")); [destruct (js_String (get d "error")); simpl; discriminate|]. intro H; injection H as <-; auto.
Qed.

Lemma validateFile_error cfg f e : validateFile cfg f = inr e -> exists m, e = new_Error m.
Proof.
  destruct f as [f|]; simpl.
  - destruct (negb _); [intro H; injection H as <-; eauto|].
    destruct (_ <? _)%Z; [intro H; injection H as <-; eauto|discriminate].
  - intro H; injection H as <-; eauto.
Qed.

(** X1: with a valid file and a response that arrives before the timeout
    with a non-2xx status, [analyzeImage] sets the timer, sends one request
    and clears the timer, then rejects with the 404 message, with the
    backend-error message for a status of 500 or more, and with "HTTP
    <status>: <statusText>" for any other status. *)
Theorem analyzeImage_http_errors cfg f t r :
  validateFile cfg (Some f) = inl true ->
  (t < UI_LOADING_TIMEOUT cfg)%Z ->
  resp_ok r = false ->
  fst (analyzeImage cfg (Some f) (FResolve t r))
    = [ESetTimer (UI_LOADING_TIMEOUT cfg); EFetch (API_BASE_URL cfg ++ ENDPOINTS_ANALYZE cfg);
       EClearTimer] /\
  (resp_status r = 404%Z ->
     snd (analyzeImage cfg (Some f) (FResolve t r))
     = inr (new_Error "API endpoint not found. Please check the configuration.")) /\
  ((500 <= resp_status r)%Z ->
     snd (analyzeImage cfg (Some f) (FResolve t r)) = inr (new_Error (ERRORS_BACKEND_ERROR cfg))) /\
  (resp_status r <> 404%Z -> (resp_status r < 500)%Z ->
     snd (analyzeImage cfg (Some f) (FResolve t r))
     = inr (new_Error ("HTTP " ++ string_of_Z (resp_status r) ++ ": " ++ resp_statusText r))).
Proof.
  intros Hv Ht Hok.
  unfold analyzeImage, analyze_try; rewrite Hv.
  apply Z.ltb_lt in Ht; rewrite Ht; simpl.
  unfold analyze_after_fetch; rewrite Hok; simpl.
  split; [reflexivity|split; [|split]].
  - intros H; apply Z.eqb_eq in H; rewrite H; apply f_equal, analyze_catch_Error.
  - intros H; destruct (resp_status r =? 404)%Z eqn:E.
    + apply Z.eqb_eq in E; lia.
    + apply Z.leb_le in H; rewrite H; apply f_equal, analyze_catch_Error.
  - intros H1 H2; apply Z.eqb_neq in H1; rewrite H1.
    replace (500 <=? resp_status r)%Z with false by (symmetry; apply Z.leb_gt; lia).
    apply f_equal, analyze_catch_Error.
Qed.

(** X2: a file that [validateFile] rejects makes [analyzeImage] reject with
    that same error, before any timer or request. *)
Theorem analyzeImage_invalid_file cfg f fo e :
  validateFile cfg f = inr e -> analyzeImage cfg f fo = ([], inr e).
Proof.
  intros Hv; destruct (validateFile_error cfg f e Hv) as [m ->].
  unfold analyzeImage, analyze_try; rewrite Hv; rewrite analyze_catch_Error; reflexivity.
Qed.

(** X3: with a valid file, [analyzeImage] clears its timeout only when
    [fetch] resolves in time; a rejection in time leaves the timer set, and
    when the timer fires first the request is aborted. *)
Theorem analyzeImage_timer_cleared_only_on_response cfg f fo :
  validateFile cfg (Some f) = inl true ->
  (forall t r, fo = FResolve t r -> (t < UI_LOADING_TIMEOUT cfg)%Z ->
     fst (analyzeImage cfg (Some f) fo)
     = [ESetTimer (UI_LOADING_TIMEOUT cfg); EFetch (API_BASE_URL cfg ++ ENDPOINTS_ANALYZE cfg);
        EClearTimer]) /\
  (forall t e, fo = FReject t e -> (t < UI_LOADING_TIMEOUT cfg)%Z ->
     fst (analyzeImage cfg (Some f) fo)
     = [ESetTimer (UI_LOADING_TIMEOUT cfg); EFetch (API_BASE_URL cfg ++ ENDPOINTS_ANALYZE cfg)]) /\
  (settles_after (UI_LOADING_TIMEOUT cfg) fo = true ->
     fst (analyzeImage cfg (Some f) fo)
     = [ESetTimer (UI_LOADING_TIMEOUT cfg); EFetch (API_BASE_URL cfg ++ ENDPOINTS_ANALYZE cfg);
        EAbort]).
Proof.
  intros Hv; unfold analyzeImage, analyze_try; rewrite Hv.
  split; [|split].
  - intros t r -> Ht; apply Z.ltb_lt in Ht; rewrite Ht; reflexivity.
  - intros t e -> Ht; apply Z.ltb_lt in Ht; rewrite Ht; reflexivity.
  - destruct fo as [t r|t e|]; simpl; try reflexivity; intro H; apply Z.leb_le in H;
      (replace (t <? UI_LOADING_TIMEOUT cfg)%Z with false
         by (symmetry; apply Z.ltb_ge; exact H)); reflexivity.
Qed.

(** X4: with a valid file and a settlement before the timeout, a rejection
    that is neither an [AbortError] nor a [TypeError] mentioning fetch is
    rethrown unchanged, and a 2xx body that is not JSON rejects with the
    [SyntaxError] of [response.json()]. *)
Theorem analyzeImage_rethrows cfg f t :
  validateFile cfg (Some f) = inl true ->
  (t < UI_LOADING_TIMEOUT cfg)%Z ->
  (forall e,
     err_name e <> "AbortError" ->
     (err_name e <> "TypeError" \/ str_includes "fetch" (err_message e) = false) ->
     snd (analyzeImage cfg (Some f) (FReject t e)) = inr e) /\
  (forall r m,
     resp_ok r = true -> resp_body r = inr m ->
     snd (analyzeImage cfg (Some f) (FResolve t r)) = inr (mkErr "SyntaxError" m)).
Proof.
  intros Hv Ht; apply Z.ltb_lt in Ht.
  unfold analyzeImage, analyze_try; rewrite Hv, Ht; simpl.
  split.
  - intros e Ha Ht'; unfold analyze_catch.
    apply String.eqb_neq in Ha; rewrite Ha.
    destruct Ht' as [Hn|Hf]; [apply String.eqb_neq in Hn; rewrite Hn|rewrite Hf, andb_false_r];
      reflexivity.
  - intros r m Hok Hb; unfold analyze_after_fetch, response_json; rewrite Hok, Hb; reflexivity.
Qed.


Module App1Run.
Import App1 App1Facts.

Lemma se_bind_lift_inl {A B} (a : A) (k : A -> SE B) s : se_bind (lift (inl a)) k s = k a s.
Proof. reflexivity. Qed.

Lemma se_bind_lift_inr {A B} (e : js_error) (k : A -> SE B) s : se_bind (lift (inr e)) k s = (s, inr e).
Proof. reflexivity. Qed.

Lemma se_bind_upd {B} f (k : unit -> SE B) s : se_bind (upd f) k s = k tt (f s).
Proof. reflexivity. Qed.

Lemma se_bind_inl {A B} (m : SE A) (k : A -> SE B) s s' b :
  se_bind m k s = (s', inl b) -> exists s1 a, m s = (s1, inl a) /\ k a s1 = (s', inl b).
Proof.
  unfold se_bind; destruct (m s) as [s1 [a|e]]; [eauto|discriminate].
Qed.

Lemma prop_inl v k w : prop v k = inl w -> w = get v k.
Proof. destruct v; simpl; try discriminate; intro H; injection H; auto. Qed.

Lemma truthy_get v k : truthy (get v k) = true -> truthy v = true.
Proof.
  destruct v as [| |b|n|str|l|fs]; simpl; intro H; try reflexivity; try discriminate; try exact H.
  destruct (k =? "length"); [|discriminate].
  destruct str; [discriminate|reflexivity].
Qed.

Lemma pres_hoare P {A} (m : SE A) : preserves P m -> hoare P P m.
Proof. intros H s Hs; exact (H s Hs). Qed.

(** [handleAnalyze] stores [res.message || ''] first, before anything else
    of the response is read. *)
Lemma handleAnalyze_backendMessage cfg fo s f res :
  selectedImage s = Some f ->
  snd (analyzeImage cfg (Some f) fo) = inl res ->
  backendMessage (snd (handleAnalyze cfg fo s)) = js_or (get res "message") (JStr "").
Proof.
  intros Hsel Hres.
  destruct (analyzeImage_ok_object _ _ _ _ Hres) as [Ht _].
  apply (handleAnalyze_success_post (fun s => backendMessage s = js_or (get res "message") (JStr ""))
           cfg fo s f res Hsel Hres).
  - unfold on_response.
    eapply hoare_lift_inl; [apply prop_truthy; exact Ht|].
    apply (hoare_upd_then _ (fun s => backendMessage s = js_or (get res "message") (JStr "")));
      [intros s0 _; reflexivity|].
    apply pres_hoare; pres_auto.
  - intros s0 m e H; exact H.
  - intros s0 b H; exact H.
Qed.

End App1Run.

(** X5: in App 1, selecting no file changes nothing; selecting files takes
    the first one, previews it through a fresh object URL, clears the error,
    the backend message, the age image and the autism output, and leaves the
    processing flag alone. *)
Theorem app1_select_clears_results :
  (forall w, App1.handleImageSelect [] w = w) /\
  (forall w f fs,
     App1.selectedImage (App1.st (App1.handleImageSelect (f :: fs) w)) = Some f /\
     App1.previewUrl (App1.st (App1.handleImageSelect (f :: fs) w))
       = Some (UObj (App1.next_handle w)) /\
     App1.log (App1.handleImageSelect (f :: fs) w)
       = (App1.log w ++ [ECreateURL (App1.next_handle w)])%list /\
     App1.error (App1.st (App1.handleImageSelect (f :: fs) w)) = None /\
     App1.backendMessage (App1.st (App1.handleImageSelect (f :: fs) w)) = JStr "" /\
     App1.ageAnnotatedImageUrl (App1.st (App1.handleImageSelect (f :: fs) w)) = None /\
     App1.autism_output_shown (App1.st (App1.handleImageSelect (f :: fs) w)) = false /\
     App1.isProcessing (App1.st (App1.handleImageSelect (f :: fs) w))
       = App1.isProcessing (App1.st w)).
Proof. split; [reflexivity|intros w f fs; repeat split]. Qed.

(** X6: in App 1, a webcam capture selects a JPEG file named webcam-
    capture.jpg with the shot as a data-URL preview and creates no object
    URL; resetting after a non-empty capture revokes that data URL. *)
Theorem app1_capture_then_reset shot n w :
  App1.selectedImage (App1.st (App1.captureFromWebcam shot n w))
    = Some (mkFile "webcam-capture.jpg" "image/jpeg" n) /\
  App1.previewUrl (App1.st (App1.captureFromWebcam shot n w)) = Some (UData shot) /\
  App1.log (App1.captureFromWebcam shot n w) = App1.log w /\
  App1.next_handle (App1.captureFromWebcam shot n w) = App1.next_handle w /\
  (shot <> "" ->
     App1.log (App1.handleReset (App1.captureFromWebcam shot n w))
     = (App1.log w ++ [ERevoke (UData shot)])%list).
Proof.
  repeat split.
  intros Hs; unfold App1.handleReset; simpl.
  apply String.eqb_neq in Hs; rewrite Hs; reflexivity.
Qed.

(** X7: in App 1, analysing with no selected image does nothing; when
    [analyzeImage] rejects, the error message is shown in the error field
    and an error snackbar, processing stops, the selection and preview are
    kept, and no backend message, age image or autism output remains. *)
Theorem app1_failed_analysis :
  (forall cfg fo s, App1.selectedImage s = None -> App1.handleAnalyze cfg fo s = ([], s)) /\
  (forall cfg fo s f e,
     App1.selectedImage s = Some f ->
     snd (analyzeImage cfg (Some f) fo) = inr e ->
     App1.error (snd (App1.handleAnalyze cfg fo s)) = Some (err_message e) /\
     App1.snack (snd (App1.handleAnalyze cfg fo s))
       = App1.mkSnack true (App1.SText (JStr (err_message e))) "error" /\
     App1.isProcessing (snd (App1.handleAnalyze cfg fo s)) = false /\
     App1.selectedImage (snd (App1.handleAnalyze cfg fo s)) = Some f /\
     App1.previewUrl (snd (App1.handleAnalyze cfg fo s)) = App1.previewUrl s /\
     App1.backendMessage (snd (App1.handleAnalyze cfg fo s)) = JStr "" /\
     App1.ageAnnotatedImageUrl (snd (App1.handleAnalyze cfg fo s)) = None /\
     App1.autism_output_shown (snd (App1.handleAnalyze cfg fo s)) = false).
Proof.
  split.
  - intros cfg fo s H; unfold App1.handleAnalyze; rewrite H; reflexivity.
  - intros cfg fo s f e Hsel Hres.
    unfold App1.handleAnalyze; rewrite Hsel.
    destruct (analyzeImage cfg (Some f) fo) as [effs r]; simpl in Hres; subst r.
    simpl; repeat split; exact Hsel.
Qed.

(** X8: in App 1, after a successful analysis whose message is the string m,
    the backend message is m, the autism-disabled alert shows exactly when
    lower-cased m contains "adult", and the adult warning when it contains
    "adult", "invalid" or "error". *)
Theorem app1_alerts_follow_message cfg fo s f res m :
  App1.selectedImage s = Some f ->
  snd (analyzeImage cfg (Some f) fo) = inl res ->
  get res "message" = JStr m ->
  App1.backendMessage (snd (App1.handleAnalyze cfg fo s)) = JStr m /\
  App1View.autism_disabled_shown (snd (App1.handleAnalyze cfg fo s))
    = inl (str_includes "adult" (str_lower m)) /\
  App1View.adult_warning_shown (snd (App1.handleAnalyze cfg fo s))
    = inl (str_includes "adult" (str_lower m) || str_includes "invalid" (str_lower m)
           || str_includes "error" (str_lower m)).
Proof.
  intros Hsel Hres Hm.
  pose proof (App1Run.handleAnalyze_backendMessage cfg fo s f res Hsel Hres) as Hb.
  rewrite Hm in Hb; unfold js_or in Hb; simpl in Hb.
  unfold App1View.autism_disabled_shown, App1View.adult_warning_shown.
  destruct (m =? "") eqn:E; simpl in Hb.
  - apply String.eqb_eq in E; subst m; rewrite Hb; repeat split.
  - rewrite Hb; simpl; rewrite E; repeat split.
Qed.

(** X9: in App 1, after a successful analysis whose message is truthy but
    not a string, rendering either alert throws the same error. *)
Theorem app1_nonstring_message_breaks_alerts cfg fo s f res :
  App1.selectedImage s = Some f ->
  snd (analyzeImage cfg (Some f) fo) = inl res ->
  truthy (get res "message") = true ->
  (forall m, get res "message" <> JStr m) ->
  exists e, App1View.autism_disabled_shown (snd (App1.handleAnalyze cfg fo s)) = inr e /\
            App1View.adult_warning_shown (snd (App1.handleAnalyze cfg fo s)) = inr e.
Proof.
  intros Hsel Hres Ht Hns.
  pose proof (App1Run.handleAnalyze_backendMessage cfg fo s f res Hsel Hres) as Hb.
  unfold js_or in Hb; rewrite Ht in Hb.
  unfold App1View.autism_disabled_shown, App1View.adult_warning_shown; rewrite Hb, Ht.
  destruct (get res "message") eqn:E; try (exfalso; eapply Hns; reflexivity);
    simpl; eexists; split; reflexivity.
Qed.

(** X10: in App 1, when the response handler completes, the snackbar is open
    with the response message (default "Analysis complete.") and has
    severity "warning" for status adult_invalid and "success" otherwise. *)
Theorem app1_success_snackbar cfg res s s' :
  App1.on_response cfg res s = (s', inl tt) ->
  App1.snack s'
  = App1.mkSnack true (App1.SText (js_or (get res "message") (JStr "Analysis complete.")))
                 (if is_str (get res "status") "adult_invalid" then "warning" else "success").
Proof.
  unfold App1.on_response; intro H.
  repeat (apply App1Run.se_bind_inl in H; destruct H as (?s & ?a & ?H & H); cbv beta in H).
  unfold App1.upd in H; injection H as <-.
  repeat match goal with
         | Hl : App1.lift (prop _ _) _ = (_, inl _) |- _ =>
             unfold App1.lift in Hl; injection Hl as _ Hl; apply App1Run.prop_inl in Hl; subst
         end.
  reflexivity.
Qed.

Lemma on_response_age_path_throws cfg res s :
  truthy res = true ->
  truthy (get (get res "age_check_summary") "annotated_image_url") = true ->
  (forall p, get (get res "age_check_summary") "annotated_image_url" <> JStr p) ->
  exists e, App1.on_response cfg res s
            = (App1.setBackendMessage (js_or (get res "message") (JStr "")) s, inr e).
Proof.
  intros Hr Hu Hns.
  set (acs := get res "age_check_summary") in *.
  assert (Ha : truthy acs = true) by (apply (App1Run.truthy_get _ _ Hu)).
  unfold App1.on_response.
  rewrite (prop_truthy res "message" Hr), App1Run.se_bind_lift_inl; cbv beta.
  rewrite App1Run.se_bind_upd.
  rewrite (prop_truthy res "age_check_summary" Hr), App1Run.se_bind_lift_inl; cbv beta.
  fold acs.
  assert (Hc : App1.and_prop acs "annotated_image_url" = inl true).
  { unfold App1.and_prop; rewrite Ha, (prop_truthy acs _ Ha); cbv [bind ret]; rewrite Hu; reflexivity. }
  rewrite Hc, App1Run.se_bind_lift_inl; cbv beta iota.
  unfold App1.se_bind at 1.
  rewrite (prop_truthy acs _ Ha), App1Run.se_bind_lift_inl; cbv beta.
  destruct (get acs "annotated_image_url") eqn:E; try (exfalso; eapply Hns; reflexivity);
    simpl in Hu |- *; try discriminate; eexists; reflexivity.
Qed.

(** X11: in App 1, a successful analysis whose age-check image URL is truthy
    but not a string ends in the catch block: an error is set, the snackbar
    has severity "error", the backend message is kept, and no age image or
    autism output is shown. *)
Theorem app1_nonstring_age_image_path cfg fo s f res :
  App1.selectedImage s = Some f ->
  snd (analyzeImage cfg (Some f) fo) = inl res ->
  truthy (get (get res "age_check_summary") "annotated_image_url") = true ->
  (forall p, get (get res "age_check_summary") "annotated_image_url" <> JStr p) ->
  (exists m, App1.error (snd (App1.handleAnalyze cfg fo s)) = Some m) /\
  App1.sb_severity (App1.snack (snd (App1.handleAnalyze cfg fo s))) = "error" /\
  App1.backendMessage (snd (App1.handleAnalyze cfg fo s)) = js_or (get res "message") (JStr "") /\
  App1.ageAnnotatedImageUrl (snd (App1.handleAnalyze cfg fo s)) = None /\
  App1.autism_output_shown (snd (App1.handleAnalyze cfg fo s)) = false.
Proof.
  intros Hsel Hres Hu Hns.
  destruct (analyzeImage_ok_object _ _ _ _ Hres) as [Hr _].
  unfold App1.handleAnalyze; rewrite Hsel.
  destruct (analyzeImage cfg (Some f) fo) as [effs r]; simpl in Hres; subst r.
  destruct (on_response_age_path_throws cfg res
              (fst ((App1.se_bind (App1.upd (App1.setIsProcessing true))
                                  (fun _ => App1.resetStateExceptImage)) s)) Hr Hu Hns)
    as [e He].
  rewrite He; simpl.
  split; [eexists; reflexivity|repeat split].
Qed.


Lemma js_filter_pure (p : jv -> bool) l :
  App2.js_filter (fun r => ret (p r)) l = inl (filter p l).
Proof. induction l as [|x l IH]; simpl; [reflexivity|]; cbv [bind ret] in *; rewrite IH; reflexivity. Qed.

Lemma js_filter_throws p l x e :
  In x l -> p x = inr e -> exists e', App2.js_filter p l = inr e'.
Proof.
  induction l as [|y l IH]; simpl; [intros []|].
  intros [->|Hin] Hp.
  - rewrite Hp; eexists; reflexivity.
  - destruct (p y) as [b|e']; simpl; [|eexists; reflexivity].
    destruct (IH Hin Hp) as [e' ->]; eexists; reflexivity.
Qed.

(** X12: [PredictionTable] renders nothing for a non-array, renders one row
    per object element with a truthy region, in order, and throws when an
    element is null or undefined. *)
Theorem PredictionTable_rows :
  (forall v, (forall l, v <> JArr l) -> App2.PredictionTable v = inl None) /\
  (forall l, forallb is_obj l = true ->
     App2.PredictionTable (JArr l)
     = inl (Some (map App2.pred_row_of (filter (fun r => truthy (get r "region")) l)))) /\
  (forall l, In JNull l \/ In JUndef l -> exists e, App2.PredictionTable (JArr l) = inr e).
Proof.
  split; [|split].
  - intros v Hv; unfold App2.PredictionTable.
    destruct v; try (destruct (negb _); reflexivity); exfalso; eapply Hv; reflexivity.
  - intros l Hl; unfold App2.PredictionTable; simpl.
    replace (App2.js_filter (fun r => let* v := prop r "region" in ret (truthy v)) l)
      with (App2.js_filter (fun r => ret (truthy (get r "region"))) l).
    + rewrite js_filter_pure; reflexivity.
    + clear -Hl; induction l as [|x l IH]; simpl in *; [reflexivity|].
      apply andb_prop in Hl as [Hx Hl]; destruct x; try discriminate; simpl.
      rewrite (IH Hl); reflexivity.
  - intros l Hin; unfold App2.PredictionTable; simpl.
    assert (H : exists x, In x l /\ (x = JNull \/ x = JUndef)) by
      (destruct Hin as [H|H]; eexists; split; eauto).
    destruct H as [x [Hx Hk]].
    destruct (js_filter_throws (fun r => let* v := prop r "region" in ret (truthy v)) l x
                (type_error "Cannot read properties of null or undefined (reading 'region')") Hx)
      as [e ->]; [destruct Hk as [-> | ->]; reflexivity|].
    eexists; reflexivity.
Qed.

(** X13: [AgeSummary] renders nothing when the summary or its annotations
    are falsy, one line per element for an annotations array, and a single
    line for any other truthy annotations value. *)
Theorem AgeSummary_lines :
  (forall v, truthy v = false -> App2.AgeSummary v = None) /\
  (forall v, truthy (get v "annotations") = false -> App2.AgeSummary v = None) /\
  (forall v l, get v "annotations" = JArr l -> App2.AgeSummary v = Some (map App2.renderAge l)) /\
  (forall v a, get v "annotations" = a -> truthy a = true -> (forall l, a <> JArr l) ->
     App2.AgeSummary v = Some [App2.renderAge a]).
Proof.
  split; [|split; [|split]].
  - intros v H; unfold App2.AgeSummary; rewrite H; reflexivity.
  - intros v H; unfold App2.AgeSummary; rewrite H; destruct (truthy v); reflexivity.
  - intros v l H; unfold App2.AgeSummary.
    rewrite (App1Run.truthy_get v "annotations") by (rewrite H; reflexivity).
    rewrite H; reflexivity.
  - intros v a H Ht Hn; unfold App2.AgeSummary.
    rewrite (App1Run.truthy_get v "annotations") by (rewrite H; exact Ht).
    rewrite H, Ht; simpl; destruct a; try reflexivity; exfalso; eapply Hn; reflexivity.
Qed.

Lemma str_includes_prefix n h : String.prefix n h = true -> str_includes n h = true.
Proof. destruct h; simpl; intro H; rewrite H; reflexivity. Qed.

Lemma prefix_app_includes a b h : String.prefix (a ++ b) h = true -> str_includes b h = true.
Proof.
  revert h; induction a as [|c a IH]; intros h H; [apply str_includes_prefix; exact H|].
  destruct h as [|d h]; simpl in H; [discriminate|].
  destruct (ascii_dec c d); [|discriminate].
  simpl; rewrite (IH h H), orb_true_r; reflexivity.
Qed.

Lemma str_includes_app_r a b h : str_includes (a ++ b) h = true -> str_includes b h = true.
Proof.
  induction h as [|d h IH]; simpl; intro H.
  - apply orb_true_iff in H as [H|H]; [|discriminate].
    apply (prefix_app_includes a b ""); exact H.
  - apply orb_true_iff in H as [H|H].
    + apply (prefix_app_includes a b (String d h)); exact H.
    + rewrite (IH H), orb_true_r; reflexivity.
Qed.

(** X14: the final-decision block gets the class "final-decision
    non-autistic" exactly when the lower-cased decision does not contain
    "autistic"; so a decision containing "non-autistic", such as
    "Non-Autistic", gets "final-decision autistic". *)
Theorem final_decision_class rs fd d :
  App2.find_final_decision rs = inl fd ->
  get fd "final_decision" = JStr d ->
  (App2.final_decision_block rs = inl [App2.EFinalDecision "final-decision non-autistic" d]
   <-> str_includes "autistic" (str_lower d) = false) /\
  (str_includes "autistic" (str_lower d) = true ->
     App2.final_decision_block rs = inl [App2.EFinalDecision "final-decision autistic" d]) /\
  (str_includes "non-autistic" (str_lower d) = true ->
     App2.final_decision_block rs = inl [App2.EFinalDecision "final-decision autistic" d]).
Proof.
  intros Hf Hg.
  assert (Hb : App2.final_decision_block rs
               = inl [App2.EFinalDecision
                        ("final-decision " ++ (if str_includes "autistic" (str_lower d)
                                               then "autistic" else "non-autistic")) d]).
  { unfold App2.final_decision_block; rewrite Hf; cbv [bind ret].
    destruct fd; simpl in Hg; try discriminate; simpl; rewrite Hg; reflexivity. }
  rewrite Hb; split; [|split].
  - destruct (str_includes "autistic" (str_lower d)); split; intro H;
      try reflexivity; discriminate.
  - intro H; rewrite H; reflexivity.
  - intro H; rewrite (str_includes_app_r "non-" "autistic" _ H); reflexivity.
Qed.

(** X15: the final decision is the first result with a truthy
    [final_decision], and later results are not inspected; with no such
    result, nothing is rendered. *)
Theorem find_final_decision_first l1 x l2 :
  Forall (fun y => y <> JUndef /\ y <> JNull /\ truthy (get y "final_decision") = false) l1 ->
  truthy (get x "final_decision") = true ->
  App2.find_final_decision (JArr (l1 ++ x :: l2)) = inl x /\
  (Forall (fun y => y <> JUndef /\ y <> JNull /\ truthy (get y "final_decision") = false) l2 ->
   App2.find_final_decision (JArr (l1 ++ l2)) = inl JUndef /\
   App2.final_decision_block (JArr (l1 ++ l2)) = inl []).
Proof.
  intros H1 Hx.
  assert (Hp : forall y, y <> JUndef -> y <> JNull -> prop y "final_decision" = inl (get y "final_decision"))
    by (intros y Hu Hn; destruct y; try reflexivity; congruence).
  assert (Hskip : forall l r, Forall (fun y => y <> JUndef /\ y <> JNull /\ truthy (get y "final_decision") = false) l ->
            App2.find_final_decision (JArr (l ++ r)) = App2.find_final_decision (JArr r)).
  { induction l as [|y l IH]; intros r Hl; [reflexivity|].
    inversion Hl as [|? ? [Hu [Hn Hf]] Hl']; subst.
    specialize (IH r Hl'); unfold App2.find_final_decision in *; simpl app; cbv [bind ret] in *.
    rewrite (Hp y Hu Hn), Hf; exact IH. }
  split.
  - rewrite (Hskip _ _ H1); unfold App2.find_final_decision; cbv [bind ret].
    rewrite (prop_truthy x _ (App1Run.truthy_get _ _ Hx)), Hx; reflexivity.
  - intros H2.
    assert (Hn : App2.find_final_decision (JArr (l1 ++ l2)) = inl JUndef).
    { rewrite (Hskip _ _ H1), <- (app_nil_r l2), (Hskip _ _ H2); reflexivity. }
    split; [exact Hn|].
    unfold App2.final_decision_block; rewrite Hn; reflexivity.
Qed.

(** X16: in App 2, an input change with no file sets the error "No file
    selected" and clears the result, keeping the selection, preview and log;
    a drop with no files only clears the drag-over flag. *)
Theorem app2_empty_selection w :
  App2.error (App2.st (App2.handleFileInputChange [] w)) = Some "No file selected" /\
  App2.result (App2.st (App2.handleFileInputChange [] w)) = JNull /\
  App2.selectedFile (App2.st (App2.handleFileInputChange [] w)) = App2.selectedFile (App2.st w) /\
  App2.previewUrl (App2.st (App2.handleFileInputChange [] w)) = App2.previewUrl (App2.st w) /\
  App2.log (App2.handleFileInputChange [] w) = App2.log w /\
  App2.handleDrop [] w
  = App2.mkWorld (App2.setIsDragOver false (App2.st w)) (App2.next_handle w) (App2.log w).
Proof. repeat split. Qed.

(** X17: in App 2, selecting a file sets the error to the validation
    outcome, clears the result and leaves the loading flag as it was: the
    results panel shows the start prompt, or still the loading view when an
    analysis is in flight. *)
Theorem app2_selection_resets_result f w :
  App2.error (App2.st (App2.handleFileSelect f w)) = App2.validateFile f /\
  App2.result (App2.st (App2.handleFileSelect f w)) = JNull /\
  App2.isLoading (App2.st (App2.handleFileSelect f w)) = App2.isLoading (App2.st w) /\
  App2.renderResults (App2.isLoading (App2.st (App2.handleFileSelect f w)))
                     (App2.result (App2.st (App2.handleFileSelect f w)))
  = (if App2.isLoading (App2.st w) then [App2.ELoading] else [App2.EPrompt]).
Proof. unfold App2.handleFileSelect; destruct (App2.validateFile f); repeat split. Qed.

Lemma str_includes_absent c n h :
  ~ In c (list_ascii_of_string h) -> str_includes (String c n) h = false.
Proof.
  induction h as [|d h IH]; simpl; intro H; [reflexivity|].
  destruct (ascii_dec c d) as [->|_]; [exfalso; apply H; left; reflexivity|].
  simpl; apply IH; intro Hin; apply H; right; exact Hin.
Qed.

Lemma no_F_uint u : ~ In "F"%char (list_ascii_of_string (NilEmpty.string_of_uint u)).
Proof. induction u; simpl; [intros []|..]; intros [H|H]; try discriminate; contradiction. Qed.

Lemma no_F_string_of_Z z : ~ In "F"%char (list_ascii_of_string (string_of_Z z)).
Proof.
  unfold string_of_Z, NilZero.string_of_int, NilZero.string_of_uint.
  destruct (Z.to_int z) as [u|u]; simpl; [|intros [H|H]; [discriminate|revert H]];
    destruct u; simpl; intros [H|H]; try discriminate; try contradiction; exact (no_F_uint _ H).
Qed.

Lemma http_error_message z :
  App2.catch_message (new_Error ("HTTP error! status: " ++ string_of_Z z))
  = "Server error. Please try again later.".
Proof.
  unfold App2.catch_message; simpl err_message.
  rewrite str_includes_absent.
  - reflexivity.
  - intro H; simpl in H; repeat (destruct H as [H|H]; [discriminate|]).
    exact (no_F_string_of_Z z H).
Qed.

(** X18: App 2 [handleAnalyze] error paths: no file gives "Please select an
    image first"; a non-2xx response gives the server-error message; a
    network failure gives the network message; a falsy or non-object body
    gives "Unexpected result format"; a non-JSON body shows its parse
    message. *)
Theorem app2_analyze_errors :
  (forall fo w, App2.selectedFile (App2.st w) = None ->
     App2.error (App2.st (App2.handleAnalyze fo w)) = Some "Please select an image first" /\
     App2.log (App2.handleAnalyze fo w) = App2.log w /\
     App2.result (App2.st (App2.handleAnalyze fo w)) = App2.result (App2.st w)) /\
  (forall w f t r, App2.selectedFile (App2.st w) = Some f -> resp_ok r = false ->
     App2.error (App2.st (App2.handleAnalyze (FResolve t r) w))
       = Some "Server error. Please try again later." /\
     App2.result (App2.st (App2.handleAnalyze (FResolve t r) w)) = JNull /\
     App2.isLoading (App2.st (App2.handleAnalyze (FResolve t r) w)) = false) /\
  (forall w f t e, App2.selectedFile (App2.st w) = Some f ->
     str_includes "Failed to fetch" (err_message e) = true ->
     App2.error (App2.st (App2.handleAnalyze (FReject t e) w))
       = Some "Network error. Please check your connection and try again.") /\
  (forall w f t r d, App2.selectedFile (App2.st w) = Some f ->
     resp_ok r = true -> resp_body r = inl d ->
     (truthy d = false \/ typeof_object d = false) ->
     App2.error (App2.st (App2.handleAnalyze (FResolve t r) w)) = Some "Unexpected result format" /\
     App2.result (App2.st (App2.handleAnalyze (FResolve t r) w)) = JNull) /\
  (forall w f t r m, App2.selectedFile (App2.st w) = Some f ->
     resp_ok r = true -> resp_body r = inr m ->
     str_includes "Failed to fetch" m = false -> str_includes "HTTP error" m = false -> m <> "" ->
     App2.error (App2.st (App2.handleAnalyze (FResolve t r) w)) = Some m).
Proof.
  split; [|split; [|split; [|split]]].
  - intros fo w H; unfold App2.handleAnalyze; rewrite H; repeat split.
  - intros w f t r Hs Hok; unfold App2.handleAnalyze, App2.analyze_after_fetch; rewrite Hs, Hok.
    cbv [negb raise]; cbv beta iota; rewrite http_error_message; repeat split.
  - intros w f t e Hs Hf; unfold App2.handleAnalyze; rewrite Hs; simpl.
    unfold App2.catch_message; rewrite Hf; reflexivity.
  - intros w f t r d Hs Hok Hb Hd; unfold App2.handleAnalyze, App2.analyze_after_fetch, response_json.
    rewrite Hs, Hok, Hb; simpl.
    assert (Hn : negb (truthy d) || negb (typeof_object d) = true)
      by (destruct Hd as [-> | ->]; [reflexivity|apply orb_true_r]).
    rewrite Hn; repeat split.
  - intros w f t r m Hs Hok Hb H1 H2 H3; unfold App2.handleAnalyze, App2.analyze_after_fetch, response_json.
    rewrite Hs, Hok, Hb; simpl.
    unfold App2.catch_message; simpl; rewrite H1, H2.
    apply String.eqb_neq in H3; rewrite H3; reflexivity.
Qed.

(** X19: in App 2, a 2xx JSON object body becomes the result with no error
    and loading off, after exactly one request to the fixed endpoint; an
    array body is stored but rendered as the unexpected-format notice. *)
Theorem app2_analyze_success w f t r d :
  App2.selectedFile (App2.st w) = Some f ->
  resp_ok r = true -> resp_body r = inl d ->
  truthy d = true -> typeof_object d = true ->
  App2.result (App2.st (App2.handleAnalyze (FResolve t r) w)) = d /\
  App2.error (App2.st (App2.handleAnalyze (FResolve t r) w)) = None /\
  App2.isLoading (App2.st (App2.handleAnalyze (FResolve t r) w)) = false /\
  App2.log (App2.handleAnalyze (FResolve t r) w)
    = (App2.log w ++ [EFetch "https://age-api-zzc8.onrender.com/process"])%list /\
  (forall l, d = JArr l ->
     App2.renderResults (App2.isLoading (App2.st (App2.handleAnalyze (FResolve t r) w)))
                        (App2.result (App2.st (App2.handleAnalyze (FResolve t r) w)))
     = [App2.ENotice App2.msg_unexpected]).
Proof.
  intros Hs Hok Hb Ht Ho.
  assert (Hw : App2.handleAnalyze (FResolve t r) w
               = App2.mkWorld (App2.setIsLoading false (App2.setResult d
                   (App2.setResult JNull (App2.setError None (App2.setIsLoading true (App2.st w))))))
                   (App2.next_handle w)
                   (App2.log w ++ [EFetch (App2.origin ++ "/process")])%list).
  { unfold App2.handleAnalyze, App2.analyze_after_fetch, response_json.
    rewrite Hs, Hok, Hb; simpl; rewrite Ht, Ho; reflexivity. }
  rewrite Hw; simpl; repeat split.
  intros l ->; reflexivity.
Qed.

Lemma resolve_url_nonstring base v :
  truthy v = true -> (forall s, v <> JStr s) -> exists e, resolve_url base v = inr e.
Proof.
  destruct v; simpl; intros Ht Hn; try discriminate; try (eexists; reflexivity).
  exfalso; exact (Hn _ eq_refl).
Qed.

Lemma find_final_decision_nonarray rs :
  truthy rs = true -> is_arr rs = false -> exists e, App2.final_decision_block rs = inr e.
Proof.
  destruct rs; simpl; intros Ht Ha; try discriminate; eexists; reflexivity.
Qed.

(** X20: in App 2, a child_autism_screened result whose autism image path is
    truthy but not a string, or whose results are truthy but not an array,
    renders only the render-error notice. *)
Theorem app2_render_error_notice result :
  truthy result = true ->
  is_str (get result "status") "child_autism_screened" = true ->
  (let p := optprop (get result "autism_prediction_data") "annotated_image_path" in
   truthy p = true /\ (forall s, p <> JStr s)) \/
  (let rs := optprop (get result "autism_prediction_data") "results" in
   truthy rs = true /\ is_arr rs = false) ->
  App2.renderResults false result = [App2.ENotice App2.msg_render_error].
Proof.
  intros Ht Hs H.
  unfold App2.renderResults; simpl; rewrite Ht; simpl.
  unfold App2.render_body; rewrite (prop_truthy _ _ Ht); simpl; rewrite Hs.
  rewrite (prop_truthy _ _ Ht); simpl.
  destruct H as [[Hp Hn] | [Hr Ha]].
  - destruct (resolve_url_nonstring App2.origin _ Hp Hn) as [e He].
    rewrite Hp, He; reflexivity.
  - destruct (find_final_decision_nonarray _ Hr Ha) as [e He].
    rewrite Hr, He.
    destruct (truthy (optprop (get result "autism_prediction_data") "annotated_image_path")); [|reflexivity].
    destruct (resolve_url App2.origin _); reflexivity.
Qed.


(* ================================================================== *)
(** * Further instances *)

Lemma analyzeImage_http_errors_witness :
  fst (analyzeImage sample_config (Some sample_image)
         (FResolve 120 (mkResponse 503 "Service Unavailable" (inl JNull))))
    = [ESetTimer 30000; EFetch "http://localhost:5000/api/analyze"; EClearTimer] /\
  snd (analyzeImage sample_config (Some sample_image)
         (FResolve 120 (mkResponse 503 "Service Unavailable" (inl JNull))))
    = inr (new_Error "Server error. Please try again later.").
Proof.
  pose proof (analyzeImage_http_errors sample_config sample_image 120
                (mkResponse 503 "Service Unavailable" (inl JNull))
                ltac:(vm_compute; reflexivity) ltac:(cbv [UI_LOADING_TIMEOUT sample_config]; lia) ltac:(vm_compute; reflexivity)) as H.
  split; [exact (proj1 H)|apply (proj1 (proj2 (proj2 H))); cbv [resp_status]; lia].
Defined.

Lemma analyzeImage_invalid_file_witness :
  analyzeImage sample_config (Some sample_big_image) FHang
  = ([], inr (new_Error "File too large. Please select an image smaller than 10MB.")).
Proof. apply analyzeImage_invalid_file; vm_compute; reflexivity. Defined.

Lemma analyzeImage_timer_cleared_only_on_response_witness :
  fst (analyzeImage sample_config (Some sample_image) FHang)
  = [ESetTimer 30000; EFetch "http://localhost:5000/api/analyze"; EAbort].
Proof.
  apply (proj2 (proj2 (analyzeImage_timer_cleared_only_on_response sample_config sample_image FHang
                         ltac:(vm_compute; reflexivity)))).
  reflexivity.
Defined.

Lemma analyzeImage_rethrows_witness :
  snd (analyzeImage sample_config (Some sample_image) (FReject 50 (mkErr "RangeError" "bad size")))
    = inr (mkErr "RangeError" "bad size") /\
  snd (analyzeImage sample_config (Some sample_image)
         (FResolve 50 (mkResponse 200 "OK" (inr "Unexpected token <"))))
    = inr (mkErr "SyntaxError" "Unexpected token <").
Proof.
  pose proof (analyzeImage_rethrows sample_config sample_image 50
                ltac:(vm_compute; reflexivity) ltac:(cbv [UI_LOADING_TIMEOUT sample_config]; lia)) as H.
  split.
  - apply (proj1 H); [discriminate|left; discriminate].
  - apply (proj2 H); reflexivity.
Defined.

Lemma app1_capture_then_reset_witness :
  App1.log (App1.handleReset (App1.captureFromWebcam "data:image/jpeg;base64,AAAA" 2048 app1_with_image))
  = (App1.log app1_with_image ++ [ERevoke (UData "data:image/jpeg;base64,AAAA")])%list.
Proof.
  apply (proj2 (proj2 (proj2 (proj2
           (app1_capture_then_reset "data:image/jpeg;base64,AAAA" 2048 app1_with_image))))).
  discriminate.
Defined.

Lemma app1_failed_analysis_witness :
  App1.handleAnalyze sample_config FHang (App1.st App1.world0) = ([], App1.st App1.world0) /\
  App1.error (snd (App1.handleAnalyze sample_config (FReject 10 (mkErr "TypeError" "Failed to fetch"))
                    (App1.st app1_with_image)))
    = Some "Network error. Please check your connection and try again.".
Proof.
  split.
  - apply (proj1 app1_failed_analysis); reflexivity.
  - apply (proj1 (proj2 app1_failed_analysis sample_config
                    (FReject 10 (mkErr "TypeError" "Failed to fetch")) (App1.st app1_with_image)
                    sample_image (new_Error "Network error. Please check your connection and try again.")
                    ltac:(reflexivity) ltac:(vm_compute; reflexivity))).
Defined.

Lemma app1_alerts_follow_message_witness :
  App1.backendMessage (snd (App1.handleAnalyze sample_config (FResolve 10 (ok_response adult_payload))
                             (App1.st app1_with_image))) = JStr "Adult detected" /\
  App1View.autism_disabled_shown (snd (App1.handleAnalyze sample_config (FResolve 10 (ok_response adult_payload))
                                        (App1.st app1_with_image)))
    = inl (str_includes "adult" (str_lower "Adult detected")) /\
  App1View.adult_warning_shown (snd (App1.handleAnalyze sample_config (FResolve 10 (ok_response adult_payload))
                                      (App1.st app1_with_image)))
    = inl (str_includes "adult" (str_lower "Adult detected")
           || str_includes "invalid" (str_lower "Adult detected")
           || str_includes "error" (str_lower "Adult detected")).
Proof.
  apply (app1_alerts_follow_message sample_config (FResolve 10 (ok_response adult_payload))
           (App1.st app1_with_image) sample_image adult_payload "Adult detected");
    vm_compute; reflexivity.
Defined.

Lemma app1_nonstring_message_breaks_alerts_witness :
  exists e,
    App1View.autism_disabled_shown
      (snd (App1.handleAnalyze sample_config
              (FResolve 10 (ok_response (JObj [("status", JStr "child_autism_screened"); ("message", JNum 1)])))
              (App1.st app1_with_image))) = inr e /\
    App1View.adult_warning_shown
      (snd (App1.handleAnalyze sample_config
              (FResolve 10 (ok_response (JObj [("status", JStr "child_autism_screened"); ("message", JNum 1)])))
              (App1.st app1_with_image))) = inr e.
Proof.
  apply (app1_nonstring_message_breaks_alerts sample_config
           (FResolve 10 (ok_response (JObj [("status", JStr "child_autism_screened"); ("message", JNum 1)])))
           (App1.st app1_with_image) sample_image
           (JObj [("status", JStr "child_autism_screened"); ("message", JNum 1)]));
    [reflexivity|vm_compute; reflexivity|reflexivity|simpl; intros m H; discriminate H].
Defined.

Lemma app1_success_snackbar_witness :
  App1.snack (fst (App1.on_response sample_config adult_payload (App1.st app1_with_image)))
  = App1.mkSnack true (App1.SText (js_or (get adult_payload "message") (JStr "Analysis complete.")))
                 (if is_str (get adult_payload "status") "adult_invalid" then "warning" else "success").
Proof.
  apply (app1_success_snackbar sample_config adult_payload (App1.st app1_with_image)
           (fst (App1.on_response sample_config adult_payload (App1.st app1_with_image)))).
  vm_compute; reflexivity.
Defined.

Lemma app1_nonstring_age_image_path_witness :
  App1.sb_severity (App1.snack (snd (App1.handleAnalyze sample_config
     (FResolve 10 (ok_response (JObj [("status", JStr "child_autism_screened");
                                      ("age_check_summary", JObj [("annotated_image_url", JNum 7)])])))
     (App1.st app1_with_image)))) = "error".
Proof.
  apply (proj1 (proj2 (app1_nonstring_age_image_path sample_config
     (FResolve 10 (ok_response (JObj [("status", JStr "child_autism_screened");
                                      ("age_check_summary", JObj [("annotated_image_url", JNum 7)])])))
     (App1.st app1_with_image) sample_image
     (JObj [("status", JStr "child_autism_screened");
            ("age_check_summary", JObj [("annotated_image_url", JNum 7)])])
     ltac:(reflexivity) ltac:(vm_compute; reflexivity) ltac:(reflexivity)
     ltac:(simpl; intros p H; discriminate H)))).
Defined.

Lemma PredictionTable_rows_witness :
  App2.PredictionTable (JStr "rows") = inl None /\
  App2.PredictionTable (JArr [JObj [("region", JStr "eyes"); ("confidence", JNum 90)];
                              JObj [("label", JStr "mouth")]])
    = inl (Some (map App2.pred_row_of (filter (fun r => truthy (get r "region"))
                   [JObj [("region", JStr "eyes"); ("confidence", JNum 90)];
                    JObj [("label", JStr "mouth")]]))) /\
  (exists e, App2.PredictionTable (JArr [JObj [("region", JStr "eyes")]; JNull]) = inr e).
Proof.
  split; [|split].
  - apply (proj1 PredictionTable_rows); intros l H; discriminate H.
  - apply (proj1 (proj2 PredictionTable_rows)); reflexivity.
  - apply (proj2 (proj2 PredictionTable_rows)); left; simpl; right; left; reflexivity.
Defined.

Lemma AgeSummary_lines_witness :
  App2.AgeSummary JNull = None /\
  App2.AgeSummary (JObj [("estimated_age", JNum 7)]) = None /\
  App2.AgeSummary (JObj [("annotations", JArr [JObj [("age", JNum 7)]; JStr "face"])])
    = Some (map App2.renderAge [JObj [("age", JNum 7)]; JStr "face"]) /\
  App2.AgeSummary (JObj [("annotations", JStr "one face")]) = Some [App2.renderAge (JStr "one face")].
Proof.
  split; [|split; [|split]].
  - apply (proj1 AgeSummary_lines); reflexivity.
  - apply (proj1 (proj2 AgeSummary_lines)); reflexivity.
  - apply (proj1 (proj2 (proj2 AgeSummary_lines))); reflexivity.
  - apply (proj2 (proj2 (proj2 AgeSummary_lines)) _ (JStr "one face"));
      [reflexivity|reflexivity|intros l H; discriminate H].
Defined.

Lemma final_decision_class_witness :
  App2.final_decision_block (JArr [JObj [("final_decision", JStr "Non-Autistic")]])
    = inl [App2.EFinalDecision "final-decision autistic" "Non-Autistic"] /\
  App2.final_decision_block (JArr [JObj [("final_decision", JStr "Typical development")]])
    = inl [App2.EFinalDecision "final-decision non-autistic" "Typical development"].
Proof.
  split.
  - apply (proj2 (proj2 (final_decision_class (JArr [JObj [("final_decision", JStr "Non-Autistic")]])
                  (JObj [("final_decision", JStr "Non-Autistic")]) "Non-Autistic"
                  ltac:(vm_compute; reflexivity) ltac:(reflexivity)))).
    vm_compute; reflexivity.
  - apply (proj2 (proj1 (final_decision_class
                  (JArr [JObj [("final_decision", JStr "Typical development")]])
                  (JObj [("final_decision", JStr "Typical development")]) "Typical development"
                  ltac:(vm_compute; reflexivity) ltac:(reflexivity)))).
    vm_compute; reflexivity.
Defined.

Lemma find_final_decision_first_witness :
  App2.find_final_decision
    (JArr ([JObj [("final_decision", JStr "")]] ++
           JObj [("final_decision", JStr "Autistic")] :: [JObj [("final_decision", JNum 0)]]))
  = inl (JObj [("final_decision", JStr "Autistic")]) /\
  App2.final_decision_block
    (JArr ([JObj [("final_decision", JStr "")]] ++ [JObj [("final_decision", JNum 0)]])) = inl [].
Proof.
  pose proof (find_final_decision_first [JObj [("final_decision", JStr "")]]
                (JObj [("final_decision", JStr "Autistic")]) [JObj [("final_decision", JNum 0)]]
                ltac:(repeat constructor; discriminate) ltac:(reflexivity)) as H.
  split; [exact (proj1 H)|].
  refine (proj2 (proj2 H _)); repeat constructor; discriminate.
Defined.

Lemma app2_analyze_errors_witness :
  App2.error (App2.st (App2.handleAnalyze FHang App2.world0)) = Some "Please select an image first" /\
  App2.error (App2.st (App2.handleAnalyze (FResolve 10 (mkResponse 500 "Internal Server Error" (inl JNull)))
                        app2_with_image)) = Some "Server error. Please try again later." /\
  App2.error (App2.st (App2.handleAnalyze (FReject 10 (mkErr "TypeError" "Failed to fetch")) app2_with_image))
    = Some "Network error. Please check your connection and try again." /\
  App2.error (App2.st (App2.handleAnalyze (FResolve 10 (ok_response (JStr "ok"))) app2_with_image))
    = Some "Unexpected result format" /\
  App2.error (App2.st (App2.handleAnalyze (FResolve 10 (mkResponse 200 "OK" (inr "Unexpected token <")))
                        app2_with_image)) = Some "Unexpected token <".
Proof.
  split; [|split; [|split; [|split]]].
  - apply (proj1 app2_analyze_errors FHang App2.world0); reflexivity.
  - apply (proj1 (proj2 app2_analyze_errors) app2_with_image sample_image);
      vm_compute; reflexivity.
  - apply (proj1 (proj2 (proj2 app2_analyze_errors)) app2_with_image sample_image);
      vm_compute; reflexivity.
  - apply (proj1 (proj2 (proj2 (proj2 app2_analyze_errors))) app2_with_image sample_image 10%Z%Z
             (ok_response (JStr "ok")) (JStr "ok")); try reflexivity.
    right; reflexivity.
  - apply (proj2 (proj2 (proj2 (proj2 app2_analyze_errors))) app2_with_image sample_image);
      try (vm_compute; reflexivity); discriminate.
Defined.

Lemma app2_analyze_success_witness :
  App2.result (App2.st (App2.handleAnalyze (FResolve 10 (ok_response child_payload)) app2_with_image))
    = child_payload /\
  App2.log (App2.handleAnalyze (FResolve 10 (ok_response child_payload)) app2_with_image)
    = (App2.log app2_with_image ++ [EFetch "https://age-api-zzc8.onrender.com/process"])%list.
Proof.
  pose proof (app2_analyze_success app2_with_image sample_image 10%Z (ok_response child_payload) child_payload
                ltac:(reflexivity) ltac:(reflexivity) ltac:(reflexivity)
                ltac:(reflexivity) ltac:(reflexivity)) as H.
  split; [exact (proj1 H)|exact (proj1 (proj2 (proj2 (proj2 H))))].
Defined.

Lemma app2_render_error_notice_witness :
  App2.renderResults false
    (JObj [("status", JStr "child_autism_screened");
           ("autism_prediction_data", JObj [("results", JStr "none")])])
  = [App2.ENotice App2.msg_render_error].
Proof.
  apply app2_render_error_notice; [reflexivity|reflexivity|].
  right; split; reflexivity.
Defined.
